(** * init_project.py: the project initialisation script of the Django
      starter template, embedded in Rocq.

    The script validates a project name, removes [.git], [.venv] and
    [src/db.sqlite3] below its own directory, writes a new [README.md] and
    rewrites two literal lines of [pyproject.toml].

    Conventions of the embedding.
    - A Python [str] is a [string]: the sequence of bytes of its UTF-8
      encoding.  Every string operation the script uses (truthiness,
      concatenation, [str.replace] with ASCII literals, the character class
      [[a-z0-9_-]]) commutes with that encoding.  [str.lower] does not have a
      finite description and is a parameter of the development.
    - A file holds the text that [Path.read_text] returns and
      [Path.write_text] stores; encodings and newline translation are below
      the level of the model.
    - The process state is threaded explicitly: file tree, the operations the
      operating system refuses, console output, and the answers still to be
      typed at the prompts. *)

From Stdlib Require Import String Ascii ZArith Lia List Bool.
From stdpp Require Import gmap strings list fin_maps.

Local Open Scope Z_scope.

(** ** Strings *)

Definition dq : string := String "034"%char EmptyString.
Definition nl : string := String "010"%char EmptyString.

(** [bool(s)] for a [str]: the empty string is falsy. *)
Definition truthy (s : string) : bool :=
  match s with
  | EmptyString => false
  | String _ _ => true
  end.

(** [s.startswith(p)]. *)
Fixpoint startswith (p s : string) : bool :=
  match p, s with
  | EmptyString, _ => true
  | String _ _, EmptyString => false
  | String a p', String b s' => Ascii.eqb a b && startswith p' s'
  end.

(** [sub in s]. *)
Fixpoint contains (sub s : string) : bool :=
  startswith sub s ||
  match s with
  | EmptyString => false
  | String _ s' => contains sub s'
  end.

Fixpoint drop_str (n : nat) (s : string) : string :=
  match n, s with
  | O, _ => s
  | S _, EmptyString => EmptyString
  | S k, String _ s' => drop_str k s'
  end.

(** [s.replace(old, new)]: the occurrences of [old] are found from the left
    and do not overlap.  [skip] counts the characters of a matched occurrence
    that are still to be passed over, which keeps the recursion structural. *)
Fixpoint replace_from (old new : string) (skip : nat) (s : string) : string :=
  match s with
  | EmptyString =>
      match skip, old with
      | O, EmptyString => new
      | _, _ => EmptyString
      end
  | String c s' =>
      match skip with
      | S k => replace_from old new k s'
      | O =>
          if startswith old s then
            match old with
            | EmptyString => new +:+ String c (replace_from old new 0 s')
            | String _ old' => new +:+ replace_from old new (String.length old') s'
            end
          else String c (replace_from old new 0 s')
      end
  end.

Definition replace (old new s : string) : string := replace_from old new 0 s.

(** ** The name pattern [^[a-z0-9_-]+$] *)

(** The character class [[a-z0-9_-]]. *)
Definition name_char (c : ascii) : bool :=
  let n := Z.of_nat (nat_of_ascii c) in
  ((97 <=? n) && (n <=? 122)) || ((48 <=? n) && (n <=? 57))
  || (n =? 95) || (n =? 45).

(** Python's [$] without [re.MULTILINE]: the end of the string, or the
    position just before a newline that ends the string. *)
Definition at_dollar (rest : string) : bool :=
  match rest with
  | EmptyString => true
  | String c EmptyString => Ascii.eqb c "010"%char
  | String _ (String _ _) => false
  end.

(** The greedy run [[a-z0-9_-]+] followed by [$].  [seen] tells whether the
    run already has a character.  Giving a character back to the run never
    helps [$], so the greedy match decides the pattern
    (see [name_pattern_matches]). *)
Fixpoint match_run (seen : bool) (s : string) : bool :=
  match s with
  | String c s' =>
      if name_char c then match_run true s' else seen && at_dollar s
  | EmptyString => seen && at_dollar s
  end.

(** [bool(re.match(r'^[a-z0-9_-]+$', name))]. *)
Definition re_match_name (name : string) : bool := match_run false name.

(** [validate_project_name(name: str | None) -> bool]. *)
Definition validate_project_name (name : option string) : bool :=
  match name with
  | None => false
  | Some s => if negb (truthy s) then false else re_match_name s
  end.

(** What the pattern is read as: a non-empty string of class characters. *)
Fixpoint all_name_chars (s : string) : bool :=
  match s with
  | EmptyString => true
  | String c s' => name_char c && all_name_chars s'
  end.

Definition well_formed_name (s : string) : bool := truthy s && all_name_chars s.


(** ** Process state *)

(** A path, as the list of its components below the directory of the script
    ([base_dir = Path(__file__).parent]). *)
Abbreviation path := (list string).

Inductive node : Type :=
| Dir
| File (text : string).

(** The five steps of the setup, used to record which of them were entered. *)
Inductive step : Type :=
| RemoveGitRepo
| RemoveVenv
| RemoveDatabase
| CreateReadme
| UpdatePyproject.

(** What the run shows on the terminal, oldest first.  [Enter] is
    observation only: it records the entry into a step function and no
    definition inspects it. *)
Inductive event : Type :=
| Print (s : string)
| PrintBlank
| PrintPanel (body title border : string)
| AskPrompt (prompt : string)
| AskConfirm (prompt : string)
| AddTask (description : string) (total : nat)
| Describe (description : string)
| Advance
| Sleep
| Enter (f : step).

Inductive exn : Type :=
| OSError (msg : string)
| ValueError (msg : string)
| TypeError (msg : string)
| IndexError (msg : string)
| EOFError.

(** How a computation ends: it returns, calls [sys.exit(code)], or raises an
    exception that nothing catches. *)
Inductive outcome (A : Type) : Type :=
| Ret (a : A)
| Exit (code : Z)
| Raise (e : exn).
Arguments Ret {A} a.
Arguments Exit {A} code.
Arguments Raise {A} e.

(** The exit status of the process for the outcome of [main]: an uncaught
    exception prints a traceback and gives status 1. *)
Definition exit_status (o : outcome unit) : Z :=
  match o with
  | Ret _ => 0
  | Exit code => code
  | Raise _ => 1
  end.

(** A refusal of the operating system on one path: the text of the error,
    whether the path can still be read (a read-only file), and what the
    refused operation has done before it is refused.  [shutil.rmtree]
    removes entries until it is refused, in an order the file system
    chooses: [removed_first] holds the entries below the path that are
    already removed; any set of entries can be given, so what holds for
    every refusal holds for every order.  [Path.write_text] is refused when
    it opens the file (nothing is written: [written_first] is [None]) or
    after it has opened and truncated it (a full disk: [written_first] is
    the text that reached the file). *)
Record fault : Type := Fault {
  readable : bool;
  message : string;
  removed_first : gset path;
  written_first : option string;
}.

Record world : Type := World {
  fs : gmap path node;
  (** the paths on which the operating system refuses an operation *)
  faults : gmap path fault;
  console : list event;
  (** what the user will still type at [Prompt.ask] and [Confirm.ask];
      an exhausted list is end of input *)
  prompt_answers : list string;
  confirm_answers : list bool;
}.

Definition set_fs (m : gmap path node) (w : world) : world :=
  World m (faults w) (console w) (prompt_answers w) (confirm_answers w).

Definition emit (e : event) (w : world) : world :=
  World (fs w) (faults w) (console w ++ [e]) (prompt_answers w) (confirm_answers w).

Definition M (A : Type) : Type := world -> outcome A * world.

Definition ret {A} (a : A) : M A := fun w => (Ret a, w).

Definition bind {A B} (m : M A) (k : A -> M B) : M B :=
  fun w =>
    match m w with
    | (Ret a, w') => k a w'
    | (Exit code, w') => (Exit code, w')
    | (Raise e, w') => (Raise e, w')
    end.

Notation "x <- m ;; k" := (bind m (fun x => k))
  (at level 100, m at next level, right associativity).
Notation "m ;;; k" := (bind m (fun _ => k))
  (at level 100, right associativity).

(** [try: body except OSError as e: handler(e)]. *)
Definition try_OSError {A} (body : M A) (handler : string -> M A) : M A :=
  fun w =>
    match body w with
    | (Raise (OSError msg), w') => handler msg w'
    | r => r
    end.

Definition sys_exit {A} (code : Z) : M A := fun w => (Exit code, w).
Definition raise {A} (e : exn) : M A := fun w => (Raise e, w).
Definition say (e : event) : M unit := fun w => (Ret tt, emit e w).
Definition console_print (s : string) : M unit := say (Print s).
Definition sleep : M unit := say Sleep.

(** ** The file system *)

Definition path_exists (p : path) : M bool :=
  fun w => (Ret (bool_decide (is_Some (fs w !! p))), w).

(** What a refused [shutil.rmtree(p)] leaves: the entries strictly below
    [p] that it removed before the refusal are gone, [p] itself stays. *)
Definition interrupted_removal (p : path) (f : fault) (m : gmap path node)
    : gmap path node :=
  filter (fun kv => ~ (kv.1 ∈ removed_first f /\ p `prefix_of` kv.1 /\ kv.1 <> p)) m.

(** [shutil.rmtree(p)]: removes [p] and everything below it.  On a regular
    file it raises [NotADirectoryError], a subclass of [OSError]. *)
Definition rmtree (p : path) : M unit :=
  fun w =>
    match faults w !! p with
    | Some f => (Raise (OSError (message f)), set_fs (interrupted_removal p f (fs w)) w)
    | None =>
        match fs w !! p with
        | Some Dir =>
            (Ret tt, set_fs (filter (fun kv => ~ p `prefix_of` kv.1) (fs w)) w)
        | Some (File _) => (Raise (OSError "[Errno 20] Not a directory"), w)
        | None => (Raise (OSError "[Errno 2] No such file or directory"), w)
        end
    end.

(** [p.unlink()]. *)
Definition unlink (p : path) : M unit :=
  fun w =>
    match faults w !! p with
    | Some f => (Raise (OSError (message f)), w)
    | None =>
        match fs w !! p with
        | Some (File _) => (Ret tt, set_fs (delete p (fs w)) w)
        | Some Dir => (Raise (OSError "[Errno 21] Is a directory"), w)
        | None => (Raise (OSError "[Errno 2] No such file or directory"), w)
        end
    end.

(** Reading is refused on a faulty path unless the fault leaves it
    readable. *)
Definition read_refused (p : path) (w : world) : option string :=
  match faults w !! p with
  | Some f => if readable f then None else Some (message f)
  | None => None
  end.

(** [p.read_text(encoding='utf-8')]. *)
Definition read_text (p : path) : M string :=
  fun w =>
    match read_refused p w with
    | Some msg => (Raise (OSError msg), w)
    | None =>
        match fs w !! p with
        | Some (File text) => (Ret text, w)
        | Some Dir => (Raise (OSError "[Errno 21] Is a directory"), w)
        | None => (Raise (OSError "[Errno 2] No such file or directory"), w)
        end
    end.

(** What a refused [p.write_text(...)] leaves: the file tree as it was when
    the file could not be opened (always so for a directory), or the file
    with the text that reached it. *)
Definition interrupted_write (p : path) (f : fault) (m : gmap path node)
    : gmap path node :=
  match written_first f, m !! p with
  | None, _ => m
  | Some _, Some Dir => m
  | Some text, _ => <[p := File text]> m
  end.

(** [p.write_text(text, encoding='utf-8')]: creates or overwrites the file. *)
Definition write_text (p : path) (text : string) : M unit :=
  fun w =>
    match faults w !! p with
    | Some f => (Raise (OSError (message f)), set_fs (interrupted_write p f (fs w)) w)
    | None =>
        match fs w !! p with
        | Some Dir => (Raise (OSError "[Errno 21] Is a directory"), w)
        | _ => (Ret tt, set_fs (<[p := File text]> (fs w)) w)
        end
    end.

(** No proper non-empty tail of [old] is a head of [old]: two occurrences
    of [old] in a text never overlap. *)
Definition unbordered (old : string) : bool :=
  forallb (fun k => negb (startswith (drop_str k old) old))
          (seq 1 (String.length old - 1)).

(** ** The texts the script writes *)

(** [description if description else default]: [None] and the empty string
    both select the default. *)
Definition or_default (description : option string) (default : string) : string :=
  match description with
  | Some d => if truthy d then d else default
  | None => default
  end.

Definition default_overview : string :=
  "A Django project built with the Django Starter Template.".

(** The template of [create_readme] from the line after [{overview}] on. *)
Definition readme_rest : string := "
## Features

- **Django 5.2+** - Latest Django features and security updates
- **Custom User Model** - Pre-configured `CustomUser` extending `AbstractUser`
- **django-allauth** - Email-based authentication with social account support
- **uv** - Fast, modern Python package manager
- **Just** - Command runner for development tasks
- **Type Safety** - Full mypy strict mode with django-stubs
- **Code Quality** - Ruff for linting/formatting, pre-commit hooks
- **Testing** - pytest with pytest-django and coverage reporting
- **Environment Configuration** - django-environ for 12-factor app compliance

## Quick Start

### Prerequisites

- Python 3.13+
- [uv](https://github.com/astral-sh/uv) - Install with `curl -LsSf https://astral.sh/uv/install.sh | sh`
- [Just](https://github.com/casey/just) - Install with `brew install just` (macOS)

### Installation

1. Set up the environment:
```bash
just install
```

2. Create a `.env` file in the project root:
```bash
SECRET_KEY=your-secret-key-here
DEBUG=True
ALLOWED_HOSTS=localhost,127.0.0.1
TIME_ZONE=UTC
DATABASE_URL=sqlite:///src/db.sqlite3
```

3. Run migrations:
```bash
just dj-migrate
```

4. Create a superuser:
```bash
uv run python src/manage.py createsuperuser
```

5. Run the development server:
```bash
just run
```

## Available Commands

Run `just` to see all available commands:

- `just install` - Set up environment (uv sync + pre-commit install)
- `just run` - Start Django dev server
- `just test` - Run pytest suite
- `just lint` - Run ruff linting and formatting
- `just check` - Run all pre-commit hooks
- `just dj-migrate` - Run migrations
- `just new-app NAME` - Create new Django app

## Project Structure

```
src/
├── config/          # Django settings and configuration
├── users/           # Custom user model
├── templates/       # Project-wide templates
└── static/          # Project-wide static files
```

## Development

This project follows strict code quality standards:

- **Python Style**: Single quotes, 120 char line length (enforced by ruff)
- **Type Checking**: Strict mypy with django-stubs
- **Pre-commit Hooks**: Automatic code quality checks on commit

## License

[Add your license here]
".

(** [readme_content] of [create_readme]. *)
Definition readme_content (project_name : string) (description : option string) : string :=
  let overview := or_default description default_overview in
  "# " +:+ project_name +:+ nl +:+
  nl +:+
  "## Overview" +:+ nl +:+
  nl +:+
  overview +:+ nl +:+
  readme_rest.

Definition name_literal : string :=
  "name = " +:+ dq +:+ "django-starter-template" +:+ dq.

Definition description_literal : string :=
  "description = " +:+ dq +:+
  "A simple way to start your Django project with a solid foundation." +:+ dq.

Definition name_line (project_name : string) : string :=
  "name = " +:+ dq +:+ project_name +:+ dq.

Definition description_line (new_description : string) : string :=
  "description = " +:+ dq +:+ new_description +:+ dq.

Definition default_description (project_name : string) : string :=
  project_name +:+ " - A Django project".

(** [updated_content] of [update_pyproject_toml], from the [content] read. *)
Definition pyproject_updated_content
    (project_name : string) (description : option string) (content : string) : string :=
  let updated_content := replace name_literal (name_line project_name) content in
  let new_description := or_default description (default_description project_name) in
  replace description_literal (description_line new_description) updated_content.

(** ** argparse, as far as [cli] uses it *)

Inductive arg_action : Type :=
| Store
| StoreTrue
| Help.

Record argument : Type := Argument {
  option_strings : list string;
  dest : string;
  nargs : option string;
  action : arg_action;
}.

Record parser : Type := Parser {
  prefix_chars : string;
  arguments : list argument;
}.

Record namespace : Type := Namespace {
  project_name : option string;
  description : option string;
  skip_git : bool;
}.

(** [c in chars]. *)
Fixpoint char_in (c : ascii) (chars : string) : bool :=
  match chars with
  | EmptyString => false
  | String d chars' => Ascii.eqb c d || char_in c chars'
  end.

(** [s[0] in chars]; [None] stands for the [IndexError] of [s[0]]. *)
Definition first_in (chars s : string) : option bool :=
  match s with
  | EmptyString => None
  | String c _ => Some (char_in c chars)
  end.

(** [len(s) > 1 and s[1] in chars]. *)
Definition second_in (chars s : string) : bool :=
  match s with
  | String _ (String c _) => char_in c chars
  | _ => false
  end.

(** [s.lstrip(chars)]. *)
Fixpoint lstrip (chars s : string) : string :=
  match s with
  | EmptyString => EmptyString
  | String c s' => if char_in c chars then lstrip chars s' else s
  end.

(** [s.replace('-', '_')]. *)
Fixpoint dashes_to_underscores (s : string) : string :=
  match s with
  | EmptyString => EmptyString
  | String c s' =>
      String (if Ascii.eqb c "-"%char then "_"%char else c) (dashes_to_underscores s')
  end.

(** The loop of [_get_optional_kwargs]: every name must start with a prefix
    character; names with two prefix characters are the long options. *)
Fixpoint scan_option_strings (chars : string) (names : list string)
    : exn + (list string * list string) :=
  match names with
  | [] => inr ([], [])
  | option_string :: names' =>
      match first_in chars option_string with
      | None => inl (IndexError "string index out of range")
      | Some false =>
          inl (ValueError ("invalid option string '" +:+ option_string +:+
                           "': must start with a character '" +:+ chars +:+ "'"))
      | Some true =>
          match scan_option_strings chars names' with
          | inl e => inl e
          | inr (all, long) =>
              inr (option_string :: all,
                   if second_in chars option_string then option_string :: long else long)
          end
      end
  end.

(** [_get_optional_kwargs]: the option strings and the inferred [dest]. *)
Definition get_optional_kwargs (chars : string) (names : list string)
    : exn + (list string * string) :=
  match scan_option_strings chars names with
  | inl e => inl e
  | inr (all, long) =>
      match (match long with s :: _ => Some s | [] => head all end) with
      | None => inl (IndexError "list index out of range")
      | Some dest_option_string =>
          let d := lstrip chars dest_option_string in
          if truthy d then inr (all, dashes_to_underscores d)
          else inl (ValueError ("dest= is required for options like '" +:+
                                default EmptyString (last all) +:+ "'"))
      end
  end.

(** [parser.add_argument] with the given names, [nargs] and [action]: one name that does
    not start with a prefix character declares a positional argument; any
    other list of names declares an option. *)
Definition add_argument (names : list string) (n : option string) (a : arg_action)
    (p : parser) : exn + parser :=
  let chars := prefix_chars p in
  match names with
  | [] => inl (TypeError "missing required argument 'dest'")
  | [name] =>
      match first_in chars name with
      | None => inl (IndexError "string index out of range")
      | Some false =>
          inr (Parser chars (arguments p ++ [Argument [] name n a]))
      | Some true =>
          match get_optional_kwargs chars names with
          | inl e => inl e
          | inr (all, d) => inr (Parser chars (arguments p ++ [Argument all d n a]))
          end
      end
  | _ :: _ :: _ =>
      match get_optional_kwargs chars names with
      | inl e => inl e
      | inr (all, d) => inr (Parser chars (arguments p ++ [Argument all d n a]))
      end
  end.

(** [argparse.ArgumentParser(...)]: prefix character [-] and the help option. *)
Definition ArgumentParser : parser :=
  Parser "-" [Argument ["-h"; "--help"] "help" None Help].

Definition lift {A} (r : exn + A) : M A :=
  match r with
  | inl e => raise e
  | inr a => ret a
  end.

(** ** The script *)

Section Script.

(** [str.lower], from the Python runtime. *)
Variable str_lower : string -> string.

(** [str(p)] for a path, from [pathlib]. *)
Variable path_str : path -> string.

(** [parser.parse_args()] on the command line, from [argparse]; it may
    print a usage message and exit. *)
Variable parse_args : parser -> list string -> M namespace.

(** [Path(__file__).parent]. *)
Variable script_dir : path.

Definition remove_git_repo (base_dir : path) : M unit :=
  say (Enter RemoveGitRepo) ;;;
  let git_dir := base_dir ++ [".git"] in
  found <- path_exists git_dir ;;
  if found then
    console_print ("Removing existing git repository at [cyan]" +:+
                   path_str git_dir +:+ "[/cyan]") ;;;
    try_OSError
      (rmtree git_dir ;;;
       console_print "[green]✓[/green] Git repository removed")
      (fun e =>
         console_print ("[red]✗[/red] Failed to remove git repository: " +:+ e) ;;;
         sys_exit 1)
  else
    console_print "[blue]ℹ[/blue] No git repository found".

Definition remove_venv (base_dir : path) : M unit :=
  say (Enter RemoveVenv) ;;;
  let venv_dir := base_dir ++ [".venv"] in
  found <- path_exists venv_dir ;;
  if found then
    console_print ("Removing existing virtual environment at [cyan]" +:+
                   path_str venv_dir +:+ "[/cyan]") ;;;
    try_OSError
      (rmtree venv_dir ;;;
       console_print "[green]✓[/green] Virtual environment removed")
      (fun e =>
         console_print ("[red]✗[/red] Failed to remove virtual environment: " +:+ e) ;;;
         sys_exit 1)
  else
    console_print "[blue]ℹ[/blue] No virtual environment found".

Definition remove_database (base_dir : path) : M unit :=
  say (Enter RemoveDatabase) ;;;
  let db_file := base_dir ++ ["src"; "db.sqlite3"] in
  found <- path_exists db_file ;;
  if found then
    console_print ("Removing existing database at [cyan]" +:+
                   path_str db_file +:+ "[/cyan]") ;;;
    try_OSError
      (unlink db_file ;;;
       console_print "[green]✓[/green] Database removed")
      (fun e =>
         console_print ("[red]✗[/red] Failed to remove database: " +:+ e) ;;;
         sys_exit 1)
  else
    console_print "[blue]ℹ[/blue] No database file found".

Definition create_readme (base_dir : path) (project_name : string)
    (description : option string) : M unit :=
  say (Enter CreateReadme) ;;;
  let readme_path := base_dir ++ ["README.md"] in
  console_print ("Creating new README.md for [cyan]" +:+ project_name +:+ "[/cyan]") ;;;
  try_OSError
    (write_text readme_path (readme_content project_name description) ;;;
     console_print "[green]✓[/green] README.md created")
    (fun e =>
       console_print ("[red]✗[/red] Failed to create README.md: " +:+ e) ;;;
       sys_exit 1).

Definition update_pyproject_toml (base_dir : path) (project_name : string)
    (description : option string) : M unit :=
  say (Enter UpdatePyproject) ;;;
  let pyproject_path := base_dir ++ ["pyproject.toml"] in
  found <- path_exists pyproject_path ;;
  (if negb found then
     console_print "[red]✗[/red] pyproject.toml not found" ;;;
     sys_exit 1
   else ret tt) ;;;
  console_print ("Updating pyproject.toml with project name: [cyan]" +:+
                 project_name +:+ "[/cyan]") ;;;
  content <-
    try_OSError
      (read_text pyproject_path)
      (fun e =>
         console_print ("[red]✗[/red] Failed to read pyproject.toml: " +:+ e) ;;;
         sys_exit 1) ;;
  let updated_content := pyproject_updated_content project_name description content in
  try_OSError
    (write_text pyproject_path updated_content ;;;
     console_print "[green]✓[/green] pyproject.toml updated")
    (fun e =>
       console_print ("[red]✗[/red] Failed to write pyproject.toml: " +:+ e) ;;;
       sys_exit 1).

(** [cli()], on the arguments after the program name. *)
Definition cli (argv : list string) : M namespace :=
  let parser := ArgumentParser in
  parser <- lift (add_argument ["--name"; "project_name"] (Some "?") Store parser) ;;
  parser <- lift (add_argument ["-d"; "--description"] None Store parser) ;;
  parser <- lift (add_argument ["--skip-git"] None StoreTrue parser) ;;
  parse_args parser argv.

Definition invalid_name_message : string :=
  "[red]✗[/red] Invalid project name. Use only lowercase letters, numbers, hyphens, and underscores.".

(** [Prompt.ask(prompt)] and [Confirm.ask(prompt)]: the next answer, or
    [EOFError] at the end of the input. *)
Definition prompt_ask (prompt : string) : M string :=
  fun w =>
    let w' := emit (AskPrompt prompt) w in
    match prompt_answers w' with
    | [] => (Raise EOFError, w')
    | a :: rest =>
        (Ret a, World (fs w') (faults w') (console w') rest (confirm_answers w'))
    end.

Definition confirm_ask (prompt : string) : M bool :=
  fun w =>
    let w' := emit (AskConfirm prompt) w in
    match confirm_answers w' with
    | [] => (Raise EOFError, w')
    | a :: rest =>
        (Ret a, World (fs w') (faults w') (console w') (prompt_answers w') rest)
    end.

(** The [while True] loop that asks for the project name.  Every turn
    takes one answer, so [fuel] turns beyond the first are enough when
    [fuel] answers are left (see [prompt_project_name]). *)
Fixpoint prompt_name_loop (fuel : nat) : M string :=
  answer <- prompt_ask "[bold cyan]Project name[/bold cyan] [dim](lowercase, with hyphens or underscores)[/dim]" ;;
  let project_name := str_lower answer in
  if validate_project_name (Some project_name) then ret project_name
  else
    console_print invalid_name_message ;;;
    match fuel with
    | S fuel' => prompt_name_loop fuel'
    | O => raise EOFError
    end.

Definition prompt_project_name : M string :=
  fun w => prompt_name_loop (length (prompt_answers w)) w.

(** [main], lines 259-296: the project name and the description, from the
    command line or from the prompts. *)
Definition choose_name (args : namespace) : M (string * option string) :=
  if truthy (default EmptyString (project_name args)) then
    let given := default EmptyString (project_name args) in
    (if negb (validate_project_name (Some (str_lower given))) then
       console_print invalid_name_message ;;;
       sys_exit 1
     else ret tt) ;;;
    ret (str_lower given, description args)
  else
    say (PrintPanel "[bold cyan]Django Project Initialization[/bold cyan]"
                    "🚀 Interactive Setup" "cyan") ;;;
    say PrintBlank ;;;
    name <- prompt_project_name ;;
    custom <- confirm_ask "[bold cyan]Add a custom description?[/bold cyan]" ;;
    description <-
      (if custom : bool then
         d <- prompt_ask "[bold cyan]Project description[/bold cyan]" ;;
         ret (Some d)
       else ret None) ;;
    say PrintBlank ;;;
    ret (name, description).

(** [main], lines 308-350: the steps under the progress bar. *)
Definition setup (base_dir : path) (name : string) (description : option string)
    (skip : bool) : M unit :=
  let total_tasks := if negb skip then 5%nat else 4%nat in
  say (AddTask "[cyan]Setting up project..." total_tasks) ;;;
  (if negb skip then
     say (Describe "[cyan]Removing git repository...") ;;;
     remove_git_repo base_dir ;;;
     sleep ;;;
     say Advance
   else ret tt) ;;;
  say (Describe "[cyan]Removing virtual environment...") ;;;
  remove_venv base_dir ;;;
  sleep ;;;
  say Advance ;;;
  say (Describe "[cyan]Removing database file...") ;;;
  remove_database base_dir ;;;
  sleep ;;;
  say Advance ;;;
  say (Describe "[cyan]Creating README.md...") ;;;
  create_readme base_dir name description ;;;
  sleep ;;;
  say Advance ;;;
  say (Describe "[cyan]Updating pyproject.toml...") ;;;
  update_pyproject_toml base_dir name description ;;;
  sleep ;;;
  say Advance ;;;
  say (Describe "[green]✓ Setup complete!").

Definition next_steps : string :=
  nl +:+ "1. Remove this script: " +:+ "rm init_project.py" +:+
  nl +:+ "2. Initialize a new git repository: " +:+ "git init" +:+
  nl +:+ "3. Set up the environment: " +:+ "just install" +:+
  nl +:+ "4. Create a .env file with your configuration" +:+
  nl +:+ "5. Run migrations: " +:+ "just dj-migrate" +:+
  nl +:+ "6. Start coding! 🎉" +:+ nl.

(** [main], lines 298-372: the banner, the steps and the closing panels. *)
Definition initialise (name : string) (description : option string)
    (skip : bool) : M unit :=
  let base_dir := script_dir in
  say PrintBlank ;;;
  say (PrintPanel ("[bold cyan]" +:+ name +:+ "[/bold cyan]")
                  "🚀 Initializing New Project" "cyan") ;;;
  say PrintBlank ;;;
  setup base_dir name description skip ;;;
  say PrintBlank ;;;
  say (PrintPanel ("[bold green]✓[/bold green] Project [cyan]" +:+ name +:+
                   "[/cyan] initialized successfully!") EmptyString "green") ;;;
  say (PrintPanel next_steps "[bold]Next Steps" "yellow").

(** [main] from line 258 on, for the namespace that [cli] returned. *)
Definition main_body (args : namespace) : M unit :=
  chosen <- choose_name args ;;
  initialise chosen.1 chosen.2 (skip_git args).

Definition main (argv : list string) : M unit :=
  args <- cli argv ;;
  main_body args.

End Script.

(** ** The steps as a list

    [setup] is a straight line of code.  To speak about "the step that
    fails" and "the steps after it", the same sequence is given as a list of
    steps and a runner; [setup_runs_plan] shows that [setup] is that list. *)

Section Plan.

Variable path_str : path -> string.
Variable base_dir : path.
Variable name : string.
Variable description : option string.

Definition run_step (s : step) : M unit :=
  match s with
  | RemoveGitRepo => remove_git_repo path_str base_dir
  | RemoveVenv => remove_venv path_str base_dir
  | RemoveDatabase => remove_database path_str base_dir
  | CreateReadme => create_readme base_dir name description
  | UpdatePyproject => update_pyproject_toml base_dir name description
  end.

(** The path a step works on. *)
Definition target (s : step) : path :=
  match s with
  | RemoveGitRepo => base_dir ++ [".git"]
  | RemoveVenv => base_dir ++ [".venv"]
  | RemoveDatabase => base_dir ++ ["src"; "db.sqlite3"]
  | CreateReadme => base_dir ++ ["README.md"]
  | UpdatePyproject => base_dir ++ ["pyproject.toml"]
  end.

(** The description the progress bar shows while a step runs. *)
Definition step_label (s : step) : string :=
  match s with
  | RemoveGitRepo => "[cyan]Removing git repository..."
  | RemoveVenv => "[cyan]Removing virtual environment..."
  | RemoveDatabase => "[cyan]Removing database file..."
  | CreateReadme => "[cyan]Creating README.md..."
  | UpdatePyproject => "[cyan]Updating pyproject.toml..."
  end.

Fixpoint run_steps (ss : list step) : M unit :=
  match ss with
  | [] => ret tt
  | s :: ss' =>
      say (Describe (step_label s)) ;;;
      run_step s ;;;
      sleep ;;;
      say Advance ;;;
      run_steps ss'
  end.

Definition plan (skip : bool) : list step :=
  (if skip then [] else [RemoveGitRepo]) ++
  [RemoveVenv; RemoveDatabase; CreateReadme; UpdatePyproject].

Definition is_cleanup (s : step) : bool :=
  match s with
  | RemoveGitRepo | RemoveVenv | RemoveDatabase => true
  | CreateReadme | UpdatePyproject => false
  end.

(** What a step may do to the file tree, whatever its outcome.  A removal
    of a tree that is refused may have removed part of it: what is left is
    part of what was there, and nothing outside the tree has changed.  A
    write that is refused may have written part of its text. *)
Definition step_effect (s : step) (m m' : gmap path node) : Prop :=
  m' = m \/
  match s with
  | RemoveGitRepo | RemoveVenv =>
      m' ⊆ m /\ forall q, ~ target s `prefix_of` q -> m' !! q = m !! q
  | RemoveDatabase => m' = delete (target s) m
  | CreateReadme =>
      m !! target s <> Some Dir /\ exists text, m' = <[target s := File text]> m
  | UpdatePyproject =>
      exists content text,
        m !! target s = Some (File content) /\
        m' = <[target s := File text]> m
  end.

(** The operating system refuses the operation of step [s] in world [w];
    [diag] is the line the step then prints and [left] the file tree that
    the refused operation leaves. *)
Inductive fs_error : step -> world -> string -> gmap path node -> Prop :=
| git_error w e w' :
    is_Some (fs w !! target RemoveGitRepo) ->
    rmtree (target RemoveGitRepo) w = (Raise (OSError e), w') ->
    fs_error RemoveGitRepo w
      ("[red]✗[/red] Failed to remove git repository: " +:+ e) (fs w')
| venv_error w e w' :
    is_Some (fs w !! target RemoveVenv) ->
    rmtree (target RemoveVenv) w = (Raise (OSError e), w') ->
    fs_error RemoveVenv w
      ("[red]✗[/red] Failed to remove virtual environment: " +:+ e) (fs w')
| database_error w e w' :
    is_Some (fs w !! target RemoveDatabase) ->
    unlink (target RemoveDatabase) w = (Raise (OSError e), w') ->
    fs_error RemoveDatabase w
      ("[red]✗[/red] Failed to remove database: " +:+ e) (fs w')
| readme_error w e w' :
    write_text (target CreateReadme) (readme_content name description) w
      = (Raise (OSError e), w') ->
    fs_error CreateReadme w
      ("[red]✗[/red] Failed to create README.md: " +:+ e) (fs w')
| pyproject_missing w :
    fs w !! target UpdatePyproject = None ->
    fs_error UpdatePyproject w "[red]✗[/red] pyproject.toml not found" (fs w)
| pyproject_read_error w e w' :
    is_Some (fs w !! target UpdatePyproject) ->
    read_text (target UpdatePyproject) w = (Raise (OSError e), w') ->
    fs_error UpdatePyproject w
      ("[red]✗[/red] Failed to read pyproject.toml: " +:+ e) (fs w')
| pyproject_write_error w content e w' :
    is_Some (fs w !! target UpdatePyproject) ->
    read_text (target UpdatePyproject) w = (Ret content, w) ->
    write_text (target UpdatePyproject)
      (pyproject_updated_content name description content) w
      = (Raise (OSError e), w') ->
    fs_error UpdatePyproject w
      ("[red]✗[/red] Failed to write pyproject.toml: " +:+ e) (fs w').

(** The operating system carries out step [s] in world [w]: what the step
    removes is absent or of the right kind and not refused, what it writes
    is not a directory and not refused, and the manifest is a file that is
    not refused.  These are the worlds without [fs_error]
    (see [step_ready_no_fs_error]). *)
Definition step_ready (s : step) (w : world) : Prop :=
  match s with
  | RemoveGitRepo | RemoveVenv =>
      fs w !! target s = None \/
      (fs w !! target s = Some Dir /\ faults w !! target s = None)
  | RemoveDatabase =>
      fs w !! target s = None \/
      ((exists text, fs w !! target s = Some (File text)) /\
       faults w !! target s = None)
  | CreateReadme =>
      fs w !! target s <> Some Dir /\ faults w !! target s = None
  | UpdatePyproject =>
      (exists content, fs w !! target s = Some (File content)) /\
      faults w !! target s = None
  end.

(** The world in which the first step of [initialise] starts: the banner
    is printed and the progress task is added. *)
Definition started (skip : bool) (w : world) : world :=
  emit (AddTask "[cyan]Setting up project..." (if negb skip then 5%nat else 4%nat))
    (emit PrintBlank
       (emit (PrintPanel ("[bold cyan]" +:+ name +:+ "[/bold cyan]")
                         "🚀 Initializing New Project" "cyan")
          (emit PrintBlank w))).

End Plan.

(** The steps entered so far, read off the console. *)
Fixpoint entered (evs : list event) : list step :=
  match evs with
  | [] => []
  | Enter s :: evs' => s :: entered evs'
  | _ :: evs' => entered evs'
  end.

(** [q] is [p] or lies below it. *)
Definition below (p q : path) : Prop := p `prefix_of` q.

(** [w'] differs from [w] at most in what was printed and in the answers
    consumed: same file tree, same refusals, no step entered. *)
Definition quiet (w w' : world) : Prop :=
  fs w' = fs w /\ faults w' = faults w /\
  entered (console w') = entered (console w).

(** ** A runtime for ASCII names and POSIX paths

    Used to run the script on concrete inputs. *)

Definition ascii_lower_char (c : ascii) : ascii :=
  let n := nat_of_ascii c in
  if ((65 <=? n) && (n <=? 90))%nat then ascii_of_nat (n + 32) else c.

(** [str.lower] on ASCII text. *)
Fixpoint ascii_lower (s : string) : string :=
  match s with
  | EmptyString => EmptyString
  | String c s' => String (ascii_lower_char c) (ascii_lower s')
  end.

(** [str(p)] for an absolute POSIX path. *)
Fixpoint posix_path_str (p : path) : string :=
  match p with
  | [] => EmptyString
  | c :: p' => "/" +:+ c +:+ posix_path_str p'
  end.

(** A command-line parser that is never reached, to instantiate [main]. *)
Definition no_parse_args (p : parser) (argv : list string) : M namespace :=
  sys_exit 2.

Definition empty_world : world := World ∅ ∅ [] [] [].

(** A checkout at [/srv/app] with a repository, a virtual environment, a
    database and the template's manifest. *)
Definition template_manifest : string :=
  "[project]" +:+ nl +:+ name_literal +:+ nl +:+ "version = " +:+ dq +:+ "0.1.0" +:+ dq +:+ nl +:+
  description_literal +:+ nl.

Definition app_dir : path := ["srv"; "app"].

Definition fresh_checkout : world :=
  World (list_to_map
           [ (app_dir ++ [".git"], Dir);
             (app_dir ++ [".git"; "HEAD"], File "ref: refs/heads/main");
             (app_dir ++ [".venv"], Dir);
             (app_dir ++ [".venv"; "pyvenv.cfg"], File "home = /usr/bin");
             (app_dir ++ ["src"], Dir);
             (app_dir ++ ["src"; "db.sqlite3"], File "SQLite format 3");
             (app_dir ++ ["README.md"], File "# Django Starter Template");
             (app_dir ++ ["pyproject.toml"], File template_manifest) ])
        ∅ [] [] [].

(** A second checkout, elsewhere and with other files, that holds the same
    manifest. *)
Definition site_dir : path := ["home"; "dev"; "site"].

Definition other_checkout : world :=
  World (list_to_map
           [ (site_dir ++ ["manage.py"], File "#!/usr/bin/env python");
             (site_dir ++ ["pyproject.toml"], File template_manifest) ])
        ∅ [Print "earlier output"] ["unused answer"] [true].

(** The checkout of [fresh_checkout] where the removal of the virtual
    environment is refused after [pyvenv.cfg] has been removed. *)
Definition locked_checkout : world :=
  World (fs fresh_checkout)
        {[ app_dir ++ [".venv"] :=
             Fault false "[Errno 13] Permission denied"
                   {[ app_dir ++ [".venv"; "pyvenv.cfg"] ]} None ]}
        [] [] [].

(** The checkout of [fresh_checkout] with a manifest that can be read but
    not written. *)
Definition readonly_checkout : world :=
  World (fs fresh_checkout)
        {[ app_dir ++ ["pyproject.toml"] :=
             Fault true "[Errno 13] Permission denied" ∅ None ]}
        [] [] [].

(** The checkout of [fresh_checkout] on a disk that is full: the README is
    opened and truncated, and the write is then refused. *)
Definition full_disk_checkout : world :=
  World (fs fresh_checkout)
        {[ app_dir ++ ["README.md"] :=
             Fault true "[Errno 28] No space left on device" ∅ (Some EmptyString) ]}
        [] [] [].


(** The number of [progress.advance] calls shown on the console. *)
Fixpoint count_advance (evs : list event) : nat :=
  match evs with
  | [] => 0
  | Advance :: evs' => S (count_advance evs')
  | _ :: evs' => count_advance evs'
  end.

(** The prompt of the project-name loop, and what one rejected answer adds
    to the console: the prompt and the message about the name. *)
Definition name_prompt : string :=
  "[bold cyan]Project name[/bold cyan] [dim](lowercase, with hyphens or underscores)[/dim]".

Definition rejected_answers (n : nat) : list event :=
  concat (repeat [AskPrompt name_prompt;
                  Print "[red]✗[/red] Invalid project name. Use only lowercase letters, numbers, hyphens, and underscores."] n).

(** The checkout of [fresh_checkout] with a user at the terminal who first
    types a name with a space, then a valid one, accepts to give a
    description and types it. *)
Definition interactive_checkout : world :=
  World (fs fresh_checkout) ∅ []
        ["My Project"; "My-Project"; "A web shop"] [true].

(** A terminal whose input ends after two names that are not valid. *)
Definition impatient_checkout : world :=
  World (fs fresh_checkout) ∅ [] ["My Project"; "Söhne"] [].

(** * Properties *)

(** ** Strings *)

#[local] Arguments String.append !s1 s2 : simpl nomatch.

Lemma app_str_assoc (a b c : string) : (a +:+ b) +:+ c = a +:+ b +:+ c.
Proof. induction a as [|x a IH]; simpl; [reflexivity | now rewrite IH]. Qed.

Lemma app_str_nil_r (a : string) : a +:+ EmptyString = a.
Proof. induction a as [|x a IH]; simpl; [reflexivity | now rewrite IH]. Qed.

Lemma length_app_str (a b : string) :
  String.length (a +:+ b) = (String.length a + String.length b)%nat.
Proof. induction a as [|x a IH]; simpl; [reflexivity | now rewrite IH]. Qed.

Lemma app_str_inv_head (a b c : string) : a +:+ b = a +:+ c -> b = c.
Proof. induction a as [|x a IH]; simpl; intros H; [assumption | injection H; auto]. Qed.

Lemma startswith_spec (p s : string) :
  startswith p s = true <-> exists t, s = p +:+ t.
Proof.
  revert s. induction p as [|a p IH]; intros s; simpl.
  - split; [intros _; now exists s | reflexivity].
  - destruct s as [|b s].
    + split; [discriminate | intros [t Ht]; discriminate].
    + rewrite andb_true_iff, Ascii.eqb_eq, IH. split.
      * intros [-> [t ->]]. now exists t.
      * intros [t Ht]. injection Ht as -> ->. split; [reflexivity | now exists t].
Qed.

Lemma startswith_app (p t : string) : startswith p (p +:+ t) = true.
Proof. apply startswith_spec. now exists t. Qed.

Lemma drop_str_app (a b : string) : drop_str (String.length a) (a +:+ b) = b.
Proof. induction a as [|x a IH]; simpl; [now destruct b | assumption]. Qed.

(** Two ways to cut one string: the shorter head is a head of the longer. *)
Lemma app_str_split (a b c d : string) :
  a +:+ b = c +:+ d -> (String.length a <= String.length c)%nat ->
  exists r, c = a +:+ r /\ b = r +:+ d.
Proof.
  revert c. induction a as [|x a IH]; intros c H Hl; simpl in *.
  - exists c. now split.
  - destruct c as [|y c]; simpl in *; [lia |].
    injection H as -> H. destruct (IH c H) as [r [-> ->]]; [lia |].
    exists r. now split.
Qed.

(** ** The name pattern *)

Lemma at_dollar_spec (rest : string) :
  at_dollar rest = true <-> rest = EmptyString \/ rest = nl.
Proof.
  destruct rest as [|c [|d rest]]; simpl.
  - split; [now left | reflexivity].
  - rewrite Ascii.eqb_eq. unfold nl. split.
    + intros ->. now right.
    + intros [H | H]; [discriminate | now injection H].
  - split; [discriminate | intros [H | H]; discriminate].
Qed.

(** The greedy matcher agrees with the pattern read as a regular
    expression: some non-empty run of class characters, then [$]. *)
Lemma name_pattern_matches (seen : bool) (s : string) :
  match_run seen s = true <->
  exists body rest, s = body +:+ rest /\ all_name_chars body = true /\
                    seen || truthy body = true /\ at_dollar rest = true.
Proof.
  revert seen. induction s as [|c s IH]; intros seen.
  - simpl. rewrite andb_true_r. split.
    + intros ->. exists EmptyString, EmptyString. now repeat split.
    + intros [body [rest [H [_ [Hs _]]]]].
      destruct body; [|discriminate]. now rewrite orb_false_r in Hs.
  - cbn [match_run]. destruct (name_char c) eqn:Hc.
    + rewrite IH. split.
      * intros [body [rest [-> [Hb [_ Hr]]]]].
        exists (String c body), rest. simpl. rewrite Hc, Hb, orb_true_r. now repeat split.
      * intros [body [rest [H [Hb [_ Hr]]]]].
        destruct body as [|b body].
        -- simpl in H. subst rest. apply at_dollar_spec in Hr as [Hr | Hr]; [discriminate |].
           injection Hr as -> _. discriminate.
        -- simpl in H, Hb. injection H as -> ->.
           apply andb_true_iff in Hb as [_ Hb]. exists body, rest. now repeat split.
    + split.
      * intros H. apply andb_true_iff in H as [-> Hr].
        exists EmptyString, (String c s). now repeat split.
      * intros [body [rest [H [Hb [Hs Hr]]]]].
        destruct body as [|b body].
        -- simpl in H. subst rest. rewrite orb_false_r in Hs. now rewrite Hs, Hr.
        -- simpl in H, Hb. injection H as -> ->. now rewrite Hc in Hb.
Qed.

(** What [validate_project_name] accepts: a well-formed name, or a
    well-formed name followed by one newline. *)
Lemma validate_project_name_spec (s : string) :
  validate_project_name (Some s) = true <->
  exists body, well_formed_name body = true /\ (s = body \/ s = body +:+ nl).
Proof.
  unfold validate_project_name, re_match_name, well_formed_name.
  split.
  - destruct (truthy s) eqn:Hs; simpl; [|discriminate].
    intros H. apply name_pattern_matches in H as [body [rest [-> [Hb [Ht Hr]]]]].
    simpl in Ht. exists body. rewrite Ht, Hb. split; [reflexivity |].
    apply at_dollar_spec in Hr as [-> | ->]; [left; now rewrite app_str_nil_r | now right].
  - intros [body [Hb Hs]]. apply andb_true_iff in Hb as [Ht Hb].
    assert (truthy s = true) as ->.
    { destruct Hs as [-> | ->]; [assumption | now destruct body]. }
    simpl. apply name_pattern_matches.
    destruct Hs as [-> | ->].
    + exists body, EmptyString. rewrite app_str_nil_r. now repeat split.
    + exists body, nl. now repeat split.
Qed.

Lemma validate_project_name_well_formed (s : string) :
  well_formed_name s = true -> validate_project_name (Some s) = true.
Proof. intros H. apply validate_project_name_spec. exists s. auto. Qed.

(** C1.  [validate_project_name] is meant to accept exactly the non-empty
    strings of lowercase letters, digits, hyphens and underscores.  It
    accepts the name [my-project] followed by a newline, which is not such a
    string: [$] also matches before a final newline. *)
Theorem validate_project_name_trailing_newline :
  validate_project_name (Some ("my-project" +:+ nl)) = true /\
  well_formed_name ("my-project" +:+ nl) = false.
Proof. split; reflexivity. Qed.

(** ** The command line *)

Lemma cli_raises_ValueError_eq
    (parse_args : parser -> list string -> M namespace) (argv : list string) (w : world) :
  cli parse_args argv w =
  (Raise (ValueError "invalid option string 'project_name': must start with a character '-'"), w).
Proof. reflexivity. Qed.

(** C2.  [cli] never returns a namespace: for every command line, and
    whatever [parse_args] would do, the first [add_argument] call raises
    [ValueError], because [project_name] is given next to [--name] and does
    not start with [-].  The state is left as it was. *)
Theorem cli_raises_ValueError
    (parse_args : parser -> list string -> M namespace) (argv : list string) (w : world) :
  cli parse_args argv w =
  (Raise (ValueError "invalid option string 'project_name': must start with a character '-'"), w).
Proof. reflexivity. Qed.

(** ** [str.replace] *)

Lemma replace_from_skip (c : ascii) (old' new : string) (k : nat) (s : string) :
  replace_from (String c old') new k s = replace (String c old') new (drop_str k s).
Proof.
  revert k. induction s as [|x s IH]; intros [|k]; try reflexivity.
  simpl. apply IH.
Qed.

Lemma replace_nil (c : ascii) (old' new : string) :
  replace (String c old') new EmptyString = EmptyString.
Proof. reflexivity. Qed.

Lemma replace_hit (old new s : string) :
  truthy old = true -> startswith old s = true ->
  replace old new s = new +:+ replace old new (drop_str (String.length old) s).
Proof.
  destruct old as [|c old']; [discriminate | intros _ H].
  destruct s as [|x s]; [discriminate |].
  unfold replace at 1. cbn [replace_from]. rewrite H.
  now rewrite replace_from_skip.
Qed.

Lemma replace_miss (old new : string) (x : ascii) (s : string) :
  startswith old (String x s) = false ->
  replace old new (String x s) = String x (replace old new s).
Proof. intros H. unfold replace. cbn [replace_from]. now rewrite H. Qed.

(** A text without occurrence of [old] is returned as it is. *)
Lemma replace_absent (old new s : string) :
  contains old s = false -> replace old new s = s.
Proof.
  induction s as [|x s IH]; intros H.
  - destruct old; [discriminate | reflexivity].
  - cbn [contains] in H. apply orb_false_iff in H as [H1 H2].
    rewrite replace_miss by assumption. now rewrite IH.
Qed.

Lemma unbordered_spec (old : string) (k : nat) :
  unbordered old = true -> (0 < k < String.length old)%nat ->
  startswith (drop_str k old) old = false.
Proof.
  unfold unbordered. rewrite forallb_forall. intros H Hk.
  apply negb_true_iff, H, in_seq. lia.
Qed.

(** An occurrence of an unbordered [old] is replaced wherever it stands, and
    the text before and after it is rewritten independently. *)
Lemma replace_around (old new a b : string) :
  truthy old = true -> unbordered old = true ->
  replace old new (a +:+ old +:+ b) =
  replace old new a +:+ new +:+ replace old new b.
Proof.
  intros Hne Hub.
  remember (String.length a) as n eqn:Hn. revert a Hn.
  induction n as [n IH] using lt_wf_ind. intros a Hn.
  destruct a as [|x a].
  - simpl. rewrite replace_hit by (assumption || apply startswith_app).
    rewrite drop_str_app. now destruct old.
  - destruct (startswith old (String x a +:+ old +:+ b)) eqn:Hs.
    + pose proof Hs as Hs'. apply startswith_spec in Hs' as [t Ht].
      destruct (le_lt_dec (String.length old) (String.length (String x a))) as [Hl | Hl].
      * symmetry in Ht. destruct (app_str_split _ _ _ _ Ht Hl) as [r [Ha Hr]].
        rewrite Ha, app_str_assoc.
        rewrite (replace_hit old new (old +:+ r +:+ old +:+ b)) by (assumption || apply startswith_app).
        rewrite (replace_hit old new (old +:+ r)) by (assumption || apply startswith_app).
        rewrite !drop_str_app.
        rewrite (IH (String.length r)); [now rewrite app_str_assoc | | reflexivity].
        rewrite Hn, Ha, length_app_str. destruct old; [discriminate | simpl; lia].
      * destruct (app_str_split _ _ _ _ Ht) as [r [Ho Hr]]; [lia |].
        assert (Hlr : (String.length r <= String.length old)%nat).
        { rewrite Ho at 1. rewrite length_app_str. lia. }
        symmetry in Hr. destruct (app_str_split _ _ _ _ Hr Hlr) as [r' [Ho' _]].
        assert (Hb : startswith (drop_str (String.length (String x a)) old) old = true).
        { rewrite Ho at 1. rewrite drop_str_app. apply startswith_spec. now exists r'. }
        rewrite unbordered_spec in Hb; [discriminate | assumption |].
        split; [simpl; lia | assumption].
    + change (String x a +:+ old +:+ b) with (String x (a +:+ old +:+ b)) in *.
      rewrite replace_miss by assumption.
      assert (Ha : startswith old (String x a) = false).
      { destruct (startswith old (String x a)) eqn:E; [|reflexivity].
        apply startswith_spec in E as [t Ht].
        assert (startswith old (String x (a +:+ old +:+ b)) = true) as H'; [|congruence].
        apply startswith_spec. exists (t +:+ old +:+ b).
        change (String x (a +:+ old +:+ b)) with (String x a +:+ old +:+ b).
        now rewrite Ht, app_str_assoc. }
      rewrite replace_miss by assumption.
      rewrite (IH (String.length a)); [reflexivity | simpl in Hn; lia | reflexivity].
Qed.

Lemma replace_whole (old new : string) :
  truthy old = true -> unbordered old = true -> replace old new old = new.
Proof.
  intros Hne Hub.
  pose proof (replace_around old new EmptyString EmptyString Hne Hub) as H.
  simpl in H. rewrite app_str_nil_r in H. rewrite H.
  destruct old; [discriminate |]. rewrite replace_nil. apply app_str_nil_r.
Qed.

Lemma literals_unbordered :
  truthy name_literal = true /\ unbordered name_literal = true /\
  truthy description_literal = true /\ unbordered description_literal = true /\
  contains name_literal description_literal = false.
Proof. repeat split; vm_compute; reflexivity. Qed.

(** ** The file system *)

Lemma lookup_rmtree_other (p q : path) (m : gmap path node) :
  ~ p `prefix_of` q ->
  filter (fun kv : path * node => ~ p `prefix_of` kv.1) m !! q = m !! q.
Proof.
  intros Hq. destruct (m !! q) as [v|] eqn:E.
  - apply map_lookup_filter_Some. split; [assumption | exact Hq].
  - apply map_lookup_filter_None. left. assumption.
Qed.

Lemma lookup_rmtree_below (p q : path) (m : gmap path node) :
  p `prefix_of` q ->
  filter (fun kv : path * node => ~ p `prefix_of` kv.1) m !! q = None.
Proof.
  intros Hq. apply map_lookup_filter_None. right. intros v _ Hn. now apply Hn.
Qed.

(** Paths with different last components below one directory. *)
Lemma not_below_sibling (base_dir : path) (a b : string) (rest rest' : list string) :
  a <> b -> ~ (base_dir ++ a :: rest) `prefix_of` (base_dir ++ b :: rest').
Proof.
  intros Hab H. apply prefix_app_inv in H. destruct H as [k Hk].
  simpl in Hk. congruence.
Qed.

(** What a refused removal leaves. *)
Lemma lookup_interrupted_removal_other (p q : path) (f : fault) (m : gmap path node) :
  ~ p `prefix_of` q -> interrupted_removal p f m !! q = m !! q.
Proof.
  intros Hq. destruct (m !! q) as [v|] eqn:E.
  - apply map_lookup_filter_Some. split; [assumption |]. simpl. tauto.
  - apply map_lookup_filter_None. left. assumption.
Qed.

Lemma lookup_interrupted_removal_root (p : path) (f : fault) (m : gmap path node) :
  interrupted_removal p f m !! p = m !! p.
Proof.
  destruct (m !! p) as [v|] eqn:E.
  - apply map_lookup_filter_Some. split; [assumption |]. simpl. tauto.
  - apply map_lookup_filter_None. left. assumption.
Qed.

Lemma interrupted_removal_subseteq (p : path) (f : fault) (m : gmap path node) :
  interrupted_removal p f m ⊆ m.
Proof. apply map_filter_subseteq. Qed.

(** The monad. *)
Ltac run :=
  unfold console_print, sleep;
  unfold bind, say, ret, sys_exit, raise, try_OSError,
         path_exists, rmtree, unlink, read_text, write_text, read_refused; simpl.

(** Case analysis on what the file system holds and refuses at the paths
    the computation looks at. *)
Ltac cases_on w :=
  run;
  repeat match goal with
  | |- context [fs w !! ?p] =>
      let E := fresh "Hnode" in destruct (fs w !! p) as [[|?]|] eqn:E; simpl
  | |- context [faults w !! ?p] =>
      let E := fresh "Hfault" in destruct (faults w !! p) eqn:E; simpl
  | |- context [readable ?f] =>
      let E := fresh "Hread" in destruct (readable f) eqn:E; simpl
  end.

Lemma bind_exit {A B} (m : M A) (k : A -> M B) (w w' : world) (code : Z) :
  m w = (Exit code, w') -> (x <- m ;; k x) w = (Exit code, w').
Proof. intros H. unfold bind. now rewrite H. Qed.

Lemma bind_ret {A B} (m : M A) (k : A -> M B) (w w' : world) (a : A) :
  m w = (Ret a, w') -> (x <- m ;; k x) w = k a w'.
Proof. intros H. unfold bind. now rewrite H. Qed.

Lemma bind_assoc {A B C} (m : M A) (k : A -> M B) (h : B -> M C) (w : world) :
  (y <- (x <- m ;; k x) ;; h y) w = (x <- m ;; y <- k x ;; h y) w.
Proof. unfold bind. destruct (m w) as [[a | code | e] w']; reflexivity. Qed.

(** The file operations look at the file tree and the refusals only.  A
    refused removal of a tree and a refused write may change the file tree;
    a refused [unlink] and a refused read leave it as it was. *)
Lemma rmtree_raise_indep (p : path) (w w' w1 : world) (e : exn) :
  rmtree p w = (Raise e, w') -> fs w1 = fs w -> faults w1 = faults w ->
  rmtree p w1 = (Raise e, set_fs (fs w') w1).
Proof.
  unfold rmtree. intros H Hfs Hf. rewrite Hfs, Hf.
  destruct (faults w !! p); [now simplify_eq |].
  destruct (fs w !! p) as [[|?]|]; simplify_eq; rewrite <- Hfs; now destruct w1.
Qed.

Lemma rmtree_frame (p : path) (w : world) :
  fs (rmtree p w).2 ⊆ fs w /\
  forall q, ~ p `prefix_of` q -> fs (rmtree p w).2 !! q = fs w !! q.
Proof.
  unfold rmtree. destruct (faults w !! p); simpl.
  - split; [apply interrupted_removal_subseteq |].
    intros q Hq. now apply lookup_interrupted_removal_other.
  - destruct (fs w !! p) as [[|?]|]; simpl; try (split; [reflexivity | reflexivity]).
    split; [apply map_filter_subseteq |].
    intros q Hq. now apply lookup_rmtree_other.
Qed.

Lemma unlink_raise_indep (p : path) (w w' w1 : world) (e : exn) :
  unlink p w = (Raise e, w') -> fs w1 = fs w -> faults w1 = faults w ->
  unlink p w1 = (Raise e, w1).
Proof.
  unfold unlink. intros H -> ->.
  destruct (faults w !! p); [now simplify_eq |].
  destruct (fs w !! p) as [[|?]|]; now simplify_eq.
Qed.

Lemma unlink_raise_same (p : path) (w w' : world) (e : exn) :
  unlink p w = (Raise e, w') -> w' = w.
Proof.
  unfold unlink. intros H.
  destruct (faults w !! p); [now simplify_eq |].
  destruct (fs w !! p) as [[|?]|]; now simplify_eq.
Qed.

Lemma read_text_indep (p : path) (w w' w1 : world) (o : outcome string) :
  read_text p w = (o, w') -> fs w1 = fs w -> faults w1 = faults w ->
  read_text p w1 = (o, w1).
Proof.
  unfold read_text, read_refused. intros H -> ->.
  destruct (faults w !! p) as [f|]; [destruct (readable f); [| now simplify_eq] |];
    destruct (fs w !! p) as [[|?]|]; now simplify_eq.
Qed.

Lemma read_text_same (p : path) (w w' : world) (o : outcome string) :
  read_text p w = (o, w') -> w' = w.
Proof.
  unfold read_text, read_refused. intros H.
  destruct (faults w !! p) as [f|]; [destruct (readable f); [| now simplify_eq] |];
    destruct (fs w !! p) as [[|?]|]; now simplify_eq.
Qed.

Lemma write_text_raise_indep (p : path) (text : string) (w w' w1 : world) (e : exn) :
  write_text p text w = (Raise e, w') -> fs w1 = fs w -> faults w1 = faults w ->
  write_text p text w1 = (Raise e, set_fs (fs w') w1).
Proof.
  unfold write_text. intros H Hfs Hf. rewrite Hfs, Hf.
  destruct (faults w !! p); [now simplify_eq |].
  destruct (fs w !! p) as [[|?]|]; simplify_eq; rewrite <- Hfs; now destruct w1.
Qed.

Lemma interrupted_write_cases (p : path) (f : fault) (m : gmap path node) :
  interrupted_write p f m = m \/
  (m !! p <> Some Dir /\ exists text, interrupted_write p f m = <[p := File text]> m).
Proof.
  unfold interrupted_write.
  destruct (written_first f) as [text|]; [| now left].
  destruct (m !! p) as [[|?]|] eqn:E; [now left | |]; right; split; eauto; congruence.
Qed.

(** A write that is refused leaves the tree as it was or its file with some
    text, and nothing else changed. *)
Lemma write_text_raise_frame (p : path) (text : string) (w w' : world) (e : exn) :
  write_text p text w = (Raise e, w') ->
  fs w' = fs w \/
  (fs w !! p <> Some Dir /\ exists text', fs w' = <[p := File text']> (fs w)).
Proof.
  unfold write_text. intros H.
  destruct (faults w !! p) as [f|].
  - injection H as _ <-. simpl. apply interrupted_write_cases.
  - destruct (fs w !! p) as [[|?]|]; simplify_eq. now left.
Qed.

(** ** The steps *)

Section StepProperties.

Variable path_str : path -> string.
Variable base_dir : path.
Variable name : string.
Variable description : option string.

Abbreviation run1 := (run_step path_str base_dir name description).
Abbreviation target := (target base_dir).
Abbreviation step_effect := (step_effect base_dir).

(** Every step returns or exits with status 1, leaves the refusals and the
    pending answers alone, logs its entry once, and changes the file tree
    only as [step_effect] allows. *)
Lemma run_step_summary (s : step) (w : world) :
  ((run1 s w).1 = Ret tt \/ (run1 s w).1 = Exit 1) /\
  faults (run1 s w).2 = faults w /\
  prompt_answers (run1 s w).2 = prompt_answers w /\
  confirm_answers (run1 s w).2 = confirm_answers w /\
  (exists evs, console (run1 s w).2 = console w ++ Enter s :: evs /\
               entered evs = []) /\
  step_effect s (fs w) (fs (run1 s w).2).
Proof.
  destruct s; unfold run1, step_effect, remove_git_repo, remove_venv,
    remove_database, create_readme, update_pyproject_toml; cases_on w.
  all: repeat split; auto;
    try (eexists; split; [rewrite <- ?app_assoc; simpl; reflexivity | reflexivity]).
  all: try (right; eauto; fail).
  all: try (right; split;
    [ apply map_filter_subseteq
    | intros q Hq;
      first [ now apply lookup_interrupted_removal_other
            | now apply lookup_rmtree_other ] ]; fail).
  all: try match goal with
       | |- context [interrupted_write ?p ?f ?m] =>
           destruct (interrupted_write_cases p f m) as [-> | [Hnd [text' ->]]];
           [now left |]
       end.
  all: right; first [ split; [congruence | eauto] | eauto ].
Qed.

Lemma cleanup_absent (s : step) (w : world) :
  is_cleanup s = true -> fs w !! target s = None ->
  exists w', run1 s w = (Ret tt, w') /\ fs w' = fs w /\ faults w' = faults w.
Proof.
  destruct s; try discriminate; intros _ Hnone;
    unfold run1, remove_git_repo, remove_venv, remove_database; run;
    simpl in Hnone; rewrite Hnone; simpl; eexists; repeat split.
Qed.

Lemma cleanup_removes (s : step) (w w1 : world) :
  is_cleanup s = true -> run1 s w = (Ret tt, w1) -> fs w1 !! target s = None.
Proof.
  destruct s; try discriminate; intros _;
    unfold run1, remove_git_repo, remove_venv, remove_database;
    cases_on w; intros H; simplify_eq/=;
    try solve [ assumption | now apply lookup_rmtree_below | apply lookup_delete_eq ].
Qed.

(** C4.  Each of [remove_git_repo], [remove_venv] and [remove_database],
    for every base directory: when its target does not exist it returns
    normally and leaves the file tree as it is; and a second run after a
    run that returned is such a run. *)
Theorem cleanup_is_idempotent (s : step) (w : world) :
  is_cleanup s = true ->
  (fs w !! target s = None ->
   exists w', run1 s w = (Ret tt, w') /\ fs w' = fs w) /\
  (forall w1, run1 s w = (Ret tt, w1) ->
   exists w2, run1 s w1 = (Ret tt, w2) /\ fs w2 = fs w1).
Proof.
  intros Hs. split.
  - intros Hnone. destruct (cleanup_absent s w Hs Hnone) as [w' [H [Hfs _]]]. eauto.
  - intros w1 H. apply (cleanup_removes s w w1 Hs) in H.
    destruct (cleanup_absent s w1 Hs H) as [w2 [H2 [Hfs _]]]. eauto.
Qed.

Lemma create_readme_writes (w : world) :
  faults w !! target CreateReadme = None ->
  fs w !! target CreateReadme <> Some Dir ->
  exists w', run1 CreateReadme w = (Ret tt, w') /\
             fs w' = <[target CreateReadme := File (readme_content name description)]> (fs w).
Proof.
  unfold run1, create_readme. simpl. intros Hf Hn. run. rewrite Hf.
  destruct (fs w !! (base_dir ++ ["README.md"])) as [[|?]|] eqn:E;
    [congruence | |]; simpl; eexists; split; reflexivity.
Qed.

Lemma update_pyproject_toml_writes (content : string) (w : world) :
  fs w !! target UpdatePyproject = Some (File content) ->
  faults w !! target UpdatePyproject = None ->
  exists w', run1 UpdatePyproject w = (Ret tt, w') /\
             fs w' = <[target UpdatePyproject :=
                         File (pyproject_updated_content name description content)]> (fs w).
Proof.
  unfold run1, update_pyproject_toml. simpl. intros Hm Hf. run.
  rewrite Hm. simpl. rewrite Hf, Hm. simpl. rewrite Hf, Hm. simpl.
  eexists; split; reflexivity.
Qed.

Lemma update_pyproject_toml_returned (content : string) (w w' : world) :
  fs w !! target UpdatePyproject = Some (File content) ->
  run1 UpdatePyproject w = (Ret tt, w') ->
  fs w' = <[target UpdatePyproject :=
              File (pyproject_updated_content name description content)]> (fs w).
Proof.
  unfold run1, update_pyproject_toml. simpl. intros Hm. run.
  rewrite Hm. simpl.
  destruct (faults w !! (base_dir ++ ["pyproject.toml"])) as [f|] eqn:Hf; simpl.
  - destruct (readable f); simpl; rewrite ?Hm; simpl; rewrite ?Hf; simpl;
      intros H; simplify_eq.
  - rewrite Hm. simpl. rewrite Hf, Hm. simpl. intros H. now simplify_eq.
Qed.

Ltac fail_done :=
  split; [reflexivity |]; split; [simpl; congruence |];
  split; [simpl; rewrite <- ?app_assoc; reflexivity | reflexivity].

(** A step that meets a file-system error prints its diagnostic last,
    exits with status 1 and leaves the file tree as the refused operation
    left it. *)
Lemma step_fails (s : step) (w w1 : world) (diag : string) (kept : gmap path node) :
  fs_error base_dir name description s w diag kept ->
  fs w1 = fs w -> faults w1 = faults w ->
  exists w2 mid,
    run1 s w1 = (Exit 1, w2) /\ fs w2 = kept /\
    console w2 = console w1 ++ Enter s :: mid ++ [Print diag] /\
    entered mid = [].
Proof.
  intros Herr Hfs Hf.
  destruct Herr as [w e w' [v Hv] Hop | w e w' [v Hv] Hop | w e w' [v Hv] Hop
                    | w e w' Hop | w Hnone | w e w' [v Hv] Hop
                    | w content e w' [v Hv] Hrd Hop];
    simpl in *;
    try (pose proof (unlink_raise_same _ _ _ _ Hop) as ->);
    try (pose proof (read_text_same _ _ _ _ Hop) as ->);
    unfold run1, remove_git_repo, remove_venv, remove_database,
      create_readme, update_pyproject_toml;
    unfold console_print, sleep;
    unfold bind, say, ret, sys_exit, raise, try_OSError,
      path_exists; simpl; rewrite ?Hfs, ?Hv, ?Hnone; simpl.
  - erewrite rmtree_raise_indep by (eassumption || (simpl; assumption)). simpl.
    eexists _, [_]. fail_done.
  - erewrite rmtree_raise_indep by (eassumption || (simpl; assumption)). simpl.
    eexists _, [_]. fail_done.
  - erewrite unlink_raise_indep by (eassumption || (simpl; assumption)). simpl.
    eexists _, [_]. fail_done.
  - erewrite write_text_raise_indep by (eassumption || (simpl; assumption)). simpl.
    eexists _, [_]. fail_done.
  - eexists _, []. fail_done.
  - erewrite read_text_indep by (eassumption || (simpl; assumption)). simpl.
    eexists _, [_]. fail_done.
  - erewrite read_text_indep by (eassumption || (simpl; assumption)). simpl.
    erewrite write_text_raise_indep by (eassumption || (simpl; assumption)). simpl.
    eexists _, [_]. fail_done.
Qed.

(** What a refused operation leaves: the same outside the target of the
    step; part of what was there when the step removes, and all of it when
    it removes one file; the tree that was there, or the file of the step
    with some text, when the step writes. *)
Lemma fs_error_frame (s : step) (w : world) (diag : string) (kept : gmap path node) :
  fs_error base_dir name description s w diag kept ->
  (forall q, ~ below (target s) q -> kept !! q = fs w !! q) /\
  (is_cleanup s = true -> kept ⊆ fs w) /\
  (s = RemoveDatabase -> kept = fs w) /\
  (is_cleanup s = false ->
   kept = fs w \/ exists text, kept = <[target s := File text]> (fs w)).
Proof.
  intros Herr.
  assert (Hwrite : forall p text w' e,
             write_text p text w = (Raise e, w') ->
             (forall q, ~ below p q -> fs w' !! q = fs w !! q) /\
             (fs w' = fs w \/ exists text', fs w' = <[p := File text']> (fs w))).
  { intros p text w' e Hop.
    destruct (write_text_raise_frame p text w w' e Hop) as [-> | [_ [text' ->]]].
    - split; [reflexivity | now left].
    - split; [| right; eauto].
      intros q Hq. apply lookup_insert_ne. intros <-. now apply Hq. }
  destruct Herr as [w e w' _ Hop | w e w' _ Hop | w e w' _ Hop
                    | w e w' Hop | w Hnone | w e w' _ Hop
                    | w content e w' _ Hrd Hop];
    try (pose proof (unlink_raise_same _ _ _ _ Hop) as ->);
    try (pose proof (read_text_same _ _ _ _ Hop) as ->);
    try (split; [reflexivity |]; split; [reflexivity |]; split; [reflexivity |];
         intros _; now left).
  - pose proof (rmtree_frame (target RemoveGitRepo) w) as [Hsub Hout].
    rewrite Hop in Hsub, Hout. simpl in Hsub, Hout.
    split; [exact Hout |]. split; [intros _; exact Hsub |].
    split; discriminate.
  - pose proof (rmtree_frame (target RemoveVenv) w) as [Hsub Hout].
    rewrite Hop in Hsub, Hout. simpl in Hsub, Hout.
    split; [exact Hout |]. split; [intros _; exact Hsub |].
    split; discriminate.
  - destruct (Hwrite _ _ _ _ Hop) as [Hout Hcases].
    split; [exact Hout |]. split; [discriminate |]. split; [discriminate |].
    intros _. exact Hcases.
  - destruct (Hwrite _ _ _ _ Hop) as [Hout Hcases].
    split; [exact Hout |]. split; [discriminate |]. split; [discriminate |].
    intros _. exact Hcases.
Qed.

Lemma step_effect_frame (s : step) (m m' : gmap path node) (q : path) :
  step_effect s m m' -> ~ target s `prefix_of` q -> m' !! q = m !! q.
Proof.
  intros [-> | Heff] Hq; [reflexivity |].
  assert (Hne : target s <> q) by (intros <-; now apply Hq).
  destruct s; lazy beta iota in Heff.
  - now apply (proj2 Heff).
  - now apply (proj2 Heff).
  - rewrite Heff. now apply lookup_delete_ne.
  - destruct Heff as [_ [text ->]]. now apply lookup_insert_ne.
  - destruct Heff as [content [text [_ ->]]]. now apply lookup_insert_ne.
Qed.

(** ** The sequence of steps *)

Lemma run_steps_app (ss1 ss2 : list step) (w : world) :
  run_steps path_str base_dir name description (ss1 ++ ss2) w =
  (run_steps path_str base_dir name description ss1 ;;;
   run_steps path_str base_dir name description ss2) w.
Proof.
  revert w. induction ss1 as [|s ss1 IH]; intros w.
  - reflexivity.
  - cbn [run_steps app]. unfold sleep. unfold bind at 1 2 3 4 5 6 7 8 9, say.
    cbv beta iota.
    destruct (run1 s (emit (Describe (step_label s)) w)) as [[[]|code|e] w']; try reflexivity.
    rewrite IH. reflexivity.
Qed.

(** [setup] runs the steps of [plan] in order. *)
Lemma setup_runs_plan (skip : bool) (w : world) :
  setup path_str base_dir name description skip w =
  (say (AddTask "[cyan]Setting up project..." (if negb skip then 5%nat else 4%nat)) ;;;
   run_steps path_str base_dir name description (plan skip) ;;;
   say (Describe "[green]✓ Setup complete!")) w.
Proof.
  destruct skip;
    cbv beta iota zeta delta [setup plan run_steps run_step step_label bind say sleep ret app negb];
    repeat match goal with
    | |- context [match ?f ?x with _ => _ end] =>
        lazymatch f with
        | remove_git_repo _ _ => idtac
        | remove_venv _ _ => idtac
        | remove_database _ _ => idtac
        | create_readme _ _ _ => idtac
        | update_pyproject_toml _ _ _ => idtac
        end;
        destruct (f x) as [[[]|?|?] ?]
    end; reflexivity.
Qed.

Lemma run_steps_cons (s : step) (ss : list step) (w : world) :
  run_steps path_str base_dir name description (s :: ss) w =
  match run1 s (emit (Describe (step_label s)) w) with
  | (Ret _, w') =>
      run_steps path_str base_dir name description ss (emit Advance (emit Sleep w'))
  | (Exit code, w') => (Exit code, w')
  | (Raise e, w') => (Raise e, w')
  end.
Proof. reflexivity. Qed.

Lemma entered_app (evs1 evs2 : list event) :
  entered (evs1 ++ evs2) = entered evs1 ++ entered evs2.
Proof.
  induction evs1 as [|e evs1 IH]; [reflexivity |].
  destruct e; simpl; now rewrite ?IH.
Qed.

(** A run of a list of steps returns or exits with status 1, enters an
    initial segment of the list in order (all of it when it returns), and
    keeps every property of the file tree that each step of the list
    keeps. *)
Lemma run_steps_summary (I : gmap path node -> Prop) (ss : list step) (w : world) :
  (forall s m m', s ∈ ss -> I m -> step_effect s m m' -> I m') ->
  I (fs w) ->
  let r := run_steps path_str base_dir name description ss w in
  (r.1 = Ret tt \/ r.1 = Exit 1) /\
  faults r.2 = faults w /\
  I (fs r.2) /\
  exists done, done `prefix_of` ss /\
               entered (console r.2) = entered (console w) ++ done /\
               (r.1 = Ret tt -> done = ss).
Proof.
  revert w. induction ss as [|s ss IH]; intros w Hkeep HI; cbn zeta.
  - simpl. repeat split; auto. exists []. rewrite app_nil_r. repeat split; auto.
  - rewrite run_steps_cons.
    destruct (run_step_summary s (emit (Describe (step_label s)) w))
      as [Ho [Hf [_ [_ [[evs [Hc He]] Heff]]]]].
    destruct (run1 s (emit (Describe (step_label s)) w)) as [o w'] eqn:Hrun.
    simpl in Ho, Hf, Hc, Heff.
    assert (HI' : I (fs w')).
    { eapply Hkeep; [left | exact HI | exact Heff]. }
    assert (Hent : entered (console w') = entered (console w) ++ [s]).
    { rewrite Hc, <- app_assoc, entered_app. simpl. now rewrite He. }
    destruct Ho as [-> | ->].
    + destruct (IH (emit Advance (emit Sleep w'))) as [Ho' [Hf' [HI2 [done [Hp [Hd Hall]]]]]].
      * intros s' m m' Hs'. apply Hkeep. now right.
      * exact HI'.
      * cbn zeta in *. simpl in Hf', Hd. split; [exact Ho' |].
        split; [congruence |]. split; [exact HI2 |].
        exists (s :: done). split; [now apply prefix_cons |].
        split.
        -- rewrite Hd, !entered_app, Hent. simpl. rewrite !app_nil_r, <- app_assoc.
           reflexivity.
        -- intros H. now rewrite Hall.
    + simpl. split; [now right |]. split; [exact Hf |]. split; [exact HI' |].
      exists [s]. split; [apply prefix_cons, prefix_nil |].
      split; [exact Hent | discriminate].
Qed.

Lemma run_steps_app_cases (ss1 ss2 : list step) (w : world) :
  run_steps path_str base_dir name description (ss1 ++ ss2) w =
  match run_steps path_str base_dir name description ss1 w with
  | (Ret _, w') => run_steps path_str base_dir name description ss2 w'
  | (Exit code, w') => (Exit code, w')
  | (Raise e, w') => (Raise e, w')
  end.
Proof. apply run_steps_app. Qed.

(** [initialise] is the banner, the steps of [plan] and the closing panels. *)
Lemma initialise_runs_plan (skip : bool) (w : world) :
  initialise path_str base_dir name description skip w =
  match run_steps path_str base_dir name description (plan skip)
          (started name skip w) with
  | (Ret _, w') =>
      (Ret tt,
       emit (PrintPanel next_steps "[bold]Next Steps" "yellow")
         (emit (PrintPanel ("[bold green]✓[/bold green] Project [cyan]" +:+ name +:+
                            "[/cyan] initialized successfully!") EmptyString "green")
            (emit PrintBlank (emit (Describe "[green]✓ Setup complete!") w'))))
  | (Exit code, w') => (Exit code, w')
  | (Raise e, w') => (Raise e, w')
  end.
Proof.
  unfold initialise, started.
  unfold bind at 1 2 3. unfold say at 1 2 3. cbv beta iota.
  unfold bind at 1. rewrite setup_runs_plan.
  unfold bind at 1. unfold say at 1. cbv beta iota.
  unfold bind at 1.
  destruct (run_steps _ _ _ _ _ _) as [[[]|code|e] w']; reflexivity.
Qed.

Lemma create_readme_returned (w w' : world) :
  run1 CreateReadme w = (Ret tt, w') ->
  fs w' = <[target CreateReadme := File (readme_content name description)]> (fs w).
Proof.
  unfold run1, create_readme; cases_on w; intros H; now simplify_eq.
Qed.

Lemma update_pyproject_toml_returned_file (w w' : world) :
  run1 UpdatePyproject w = (Ret tt, w') ->
  exists content,
    fs w !! target UpdatePyproject = Some (File content) /\
    fs w' = <[target UpdatePyproject :=
                File (pyproject_updated_content name description content)]> (fs w).
Proof.
  unfold run1, update_pyproject_toml; cases_on w; intros H; simplify_eq; eauto.
Qed.


(** Nothing lies at or below the targets of two different steps. *)
Lemma targets_disjoint (s s' : step) (q : path) :
  s <> s' -> below (target s') q -> ~ below (target s) q.
Proof.
  intros Hne [k ->]. unfold below.
  destruct s, s'; try congruence; simpl; rewrite <- app_assoc; simpl;
    apply not_below_sibling; discriminate.
Qed.

Lemma NoDup_plan (skip : bool) : NoDup (plan skip).
Proof.
  destruct skip; simpl;
    repeat (apply NoDup_cons; split;
            [rewrite ?elem_of_cons, elem_of_nil; intuition discriminate |]);
    apply NoDup_nil_2.
Qed.

(** C7.  When a step meets a file-system error (the removal, the read or
    the write raises [OSError], or [pyproject.toml] is missing), the run of
    the script ends there with exit status 1; the diagnostic of that step is
    the last thing printed and the steps entered are exactly the ones up to
    the failing step (none of the later ones).  Nothing is rolled back: the
    file tree at the end is the one the refused operation left, which is
    the tree the earlier steps left at every path outside the target of the
    failing step, the targets of the earlier steps and all that lies below
    them included.  At its own
    target a refused removal of a directory tree may have removed entries
    of the tree and has added none, a refused removal of the database has
    changed nothing, and a refused write has changed nothing or has left
    the file with part of the text. *)
Theorem filesystem_error_ends_the_run (skip : bool) (pre post : list step) (s : step)
    (w w1 : world) (diag : string) (kept : gmap path node) :
  plan skip = pre ++ s :: post ->
  run_steps path_str base_dir name description pre (started name skip w) = (Ret tt, w1) ->
  fs_error base_dir name description s w1 diag kept ->
  exists w2,
    initialise path_str base_dir name description skip w = (Exit 1, w2) /\
    exit_status (initialise path_str base_dir name description skip w).1 = 1 /\
    last (console w2) = Some (Print diag) /\
    entered (console w2) = entered (console w) ++ pre ++ [s] /\
    fs w2 = kept /\
    (forall q, ~ below (target s) q -> fs w2 !! q = fs w1 !! q) /\
    (forall s' q, s' ∈ pre -> below (target s') q -> fs w2 !! q = fs w1 !! q) /\
    (is_cleanup s = true -> fs w2 ⊆ fs w1) /\
    (s = RemoveDatabase -> fs w2 = fs w1) /\
    (is_cleanup s = false ->
     fs w2 = fs w1 \/ exists text, fs w2 = <[target s := File text]> (fs w1)).
Proof.
  intros Hplan Hpre Herr.
  destruct (step_fails s w1 (emit (Describe (step_label s)) w1) diag kept Herr eq_refl eq_refl)
    as [w2 [mid [Hrun [Hfs [Hcon Hmid]]]]].
  destruct (fs_error_frame s w1 diag kept Herr) as [Hout [Hsub [Hsame Hwrite]]].
  assert (Hinit : initialise path_str base_dir name description skip w = (Exit 1, w2)).
  { rewrite initialise_runs_plan, Hplan, run_steps_app_cases, Hpre, run_steps_cons, Hrun.
    reflexivity. }
  exists w2. rewrite Hinit. split; [reflexivity |]. split; [reflexivity |].
  split; [| split; [| rewrite Hfs; split; [reflexivity |]; split; [exact Hout |];
                      split; [| auto]]].
  - rewrite Hcon, app_comm_cons, app_assoc. apply last_snoc.
  - destruct (run_steps_summary (fun _ => True) pre (started name skip w))
      as [_ [_ [_ [done [_ [Hd Hall]]]]]]; [auto | exact Logic.I |].
    rewrite Hpre in Hd, Hall. simpl in Hd, Hall.
    rewrite Hall in Hd by reflexivity.
    rewrite Hcon. simpl. rewrite !entered_app. simpl.
    rewrite !entered_app, Hmid, Hd. simpl. rewrite !entered_app. simpl.
    rewrite !app_nil_r, <- !app_assoc. reflexivity.
  - intros s' q Hs' Hq. apply Hout. apply (targets_disjoint s s' q); [| exact Hq].
    intros <-.
    pose proof (NoDup_plan skip) as Hnd. rewrite Hplan in Hnd.
    apply NoDup_app in Hnd as [_ [Hnd _]]. apply (Hnd s Hs'). now left.
Qed.

Lemma sibling_ne (dir : path) (a b : string) (rest rest' : list string) :
  a <> b -> dir ++ a :: rest <> dir ++ b :: rest'.
Proof. intros Hab H. apply app_inv_head in H. congruence. Qed.




(** What a run of [initialise] that returns leaves in [README.md] and
    [pyproject.toml]: both are rewritten for [name] and [description]. *)
Lemma initialise_outputs (skip : bool) (w : world) :
  let r := initialise path_str base_dir name description skip w in
  let readme := base_dir ++ ["README.md"] in
  let manifest := base_dir ++ ["pyproject.toml"] in
  r.1 = Ret tt ->
  fs r.2 !! readme = Some (File (readme_content name description)) /\
  exists content,
    fs w !! manifest = Some (File content) /\
    fs r.2 !! manifest =
      Some (File (pyproject_updated_content name description content)).
Proof.
  cbn zeta. rewrite initialise_runs_plan.
  set (pre := (if skip then [] else [RemoveGitRepo]) ++ [RemoveVenv; RemoveDatabase]).
  assert (Hplan : plan skip = pre ++ [CreateReadme; UpdatePyproject])
    by (unfold plan, pre; now destruct skip).
  assert (Hne : base_dir ++ ["pyproject.toml"] <> base_dir ++ ["README.md"])
    by now apply sibling_ne.
  rewrite Hplan, run_steps_app_cases.
  destruct (run_steps_summary
              (fun m => m !! (base_dir ++ ["pyproject.toml"]) =
                          fs w !! (base_dir ++ ["pyproject.toml"]))
              pre (started name skip w))
    as [Ho [_ [HP _]]].
  - intros s m m' Hs Hm Heff. rewrite <- Hm.
    apply (step_effect_frame s _ _ _ Heff).
    assert (Hs' : s = RemoveGitRepo \/ s = RemoveVenv \/ s = RemoveDatabase).
    { unfold pre in Hs. destruct skip; simpl in Hs;
        repeat (apply elem_of_cons in Hs as [-> | Hs]); auto;
        now apply elem_of_nil in Hs. }
    destruct Hs' as [-> | [-> | ->]]; simpl; now apply not_below_sibling.
  - reflexivity.
  - destruct (run_steps _ _ _ _ pre _) as [o w1]. simpl in Ho, HP.
    destruct Ho as [-> | ->]; [| discriminate].
    rewrite run_steps_cons.
    pose proof (run_step_summary CreateReadme (emit (Describe (step_label CreateReadme)) w1))
      as [Ho2 _].
    destruct (run1 CreateReadme _) as [o2 w2] eqn:H2. simpl in Ho2.
    destruct Ho2 as [-> | ->]; [| discriminate].
    apply create_readme_returned in H2. simpl in H2.
    rewrite run_steps_cons.
    pose proof (run_step_summary UpdatePyproject
                  (emit (Describe (step_label UpdatePyproject))
                     (emit Advance (emit Sleep w2))))
      as [Ho3 _].
    destruct (run1 UpdatePyproject _) as [o3 w3] eqn:H3. simpl in Ho3.
    destruct Ho3 as [-> | ->]; [| discriminate].
    apply update_pyproject_toml_returned_file in H3 as [content [Hc H3]].
    simpl in Hc, H3. intros _. simpl.
    assert (HP2 : fs w2 !! (base_dir ++ ["pyproject.toml"]) =
                  fs w !! (base_dir ++ ["pyproject.toml"])).
    { rewrite H2, lookup_insert_ne by (simpl; now apply sibling_ne). exact HP. }
    rewrite HP2 in Hc. split.
    + rewrite H3, lookup_insert_ne by exact Hne. rewrite H2. apply lookup_insert_eq.
    + exists content. split; [exact Hc |]. rewrite H3. apply lookup_insert_eq.
Qed.

(** ** Runs without a file-system error *)


(** A step that is ready returns. *)
Lemma step_ready_returns (s : step) (w : world) :
  step_ready base_dir s w -> (run1 s w).1 = Ret tt.
Proof.
  destruct s; unfold step_ready, run1, remove_git_repo, remove_venv,
    remove_database, create_readme, update_pyproject_toml; run.
  - intros [Hn | [Hn Hf]]; rewrite Hn; simpl; rewrite ?Hf, ?Hn; reflexivity.
  - intros [Hn | [Hn Hf]]; rewrite Hn; simpl; rewrite ?Hf, ?Hn; reflexivity.
  - intros [Hn | [[text Hn] Hf]]; rewrite Hn; simpl; rewrite ?Hf, ?Hn; reflexivity.
  - intros [Hn Hf]. rewrite Hf.
    destruct (fs w !! (base_dir ++ ["README.md"])) as [[|?]|]; [congruence | |]; reflexivity.
  - intros [[content Hn] Hf]. rewrite Hn. simpl. rewrite Hf, Hn. simpl.
    rewrite Hf, Hn. reflexivity.
Qed.

(** The worlds in which a step is ready are the worlds in which it meets
    no file-system error. *)
Lemma step_ready_no_fs_error (s : step) (w : world) :
  step_ready base_dir s w <->
  ~ exists diag kept, fs_error base_dir name description s w diag kept.
Proof.
  split.
  - intros Hready [diag [kept Herr]].
    destruct (step_fails s w w diag kept Herr eq_refl eq_refl) as [w2 [mid [Hrun _]]].
    pose proof (step_ready_returns s w Hready) as Hret.
    rewrite Hrun in Hret. discriminate.
  - intros Hno.
    assert (Hno' : forall diag kept, ~ fs_error base_dir name description s w diag kept)
      by (intros diag kept H; apply Hno; eauto).
    clear Hno. destruct s; simpl.
    + destruct (fs w !! (base_dir ++ [".git"])) as [v|] eqn:Hn; [| now left].
      destruct (rmtree (base_dir ++ [".git"]) w) as [[[]|code|[]] w'] eqn:Hop;
        try (exfalso; eapply Hno'; eapply git_error; [eexists; exact Hn | exact Hop]);
        revert Hop; unfold rmtree;
        destruct (faults w !! (base_dir ++ [".git"])); try discriminate;
        simpl in Hn; rewrite Hn; destruct v; try discriminate; auto.
    + destruct (fs w !! (base_dir ++ [".venv"])) as [v|] eqn:Hn; [| now left].
      destruct (rmtree (base_dir ++ [".venv"]) w) as [[[]|code|[]] w'] eqn:Hop;
        try (exfalso; eapply Hno'; eapply venv_error; [eexists; exact Hn | exact Hop]);
        revert Hop; unfold rmtree;
        destruct (faults w !! (base_dir ++ [".venv"])); try discriminate;
        simpl in Hn; rewrite Hn; destruct v; try discriminate; auto.
    + destruct (fs w !! (base_dir ++ ["src"; "db.sqlite3"])) as [v|] eqn:Hn; [| now left].
      destruct (unlink (base_dir ++ ["src"; "db.sqlite3"]) w) as [[[]|code|[]] w'] eqn:Hop;
        try (exfalso; eapply Hno'; eapply database_error; [eexists; exact Hn | exact Hop]);
        revert Hop; unfold unlink;
        destruct (faults w !! (base_dir ++ ["src"; "db.sqlite3"])); try discriminate;
        simpl in Hn; rewrite Hn; destruct v; try discriminate; eauto.
    + destruct (write_text (base_dir ++ ["README.md"]) (readme_content name description) w)
        as [[[]|code|[]] w'] eqn:Hop;
        try (exfalso; eapply Hno'; eapply readme_error; exact Hop);
        revert Hop; unfold write_text;
        destruct (faults w !! (base_dir ++ ["README.md"])); try discriminate;
        destruct (fs w !! (base_dir ++ ["README.md"])) as [[|?]|]; try discriminate; auto.
    + destruct (fs w !! (base_dir ++ ["pyproject.toml"])) as [v|] eqn:Hn;
        [| exfalso; eapply Hno'; now apply pyproject_missing].
      destruct (read_text (base_dir ++ ["pyproject.toml"]) w) as [[content|code|[]] w'] eqn:Hrd;
        try (exfalso; eapply Hno'; eapply pyproject_read_error; [eexists; exact Hn | exact Hrd]);
        try (revert Hrd; unfold read_text;
             destruct (read_refused _ _); try discriminate;
             simpl in Hn; rewrite Hn; destruct v; discriminate).
      pose proof (read_text_same _ _ _ _ Hrd) as ->.
      destruct (write_text (base_dir ++ ["pyproject.toml"])
                  (pyproject_updated_content name description content) w)
        as [[[]|code|[]] w''] eqn:Hop;
        try (exfalso; eapply Hno'; eapply pyproject_write_error;
             [eexists; exact Hn | exact Hrd | exact Hop]);
        revert Hop; unfold write_text;
        destruct (faults w !! (base_dir ++ ["pyproject.toml"])); try discriminate;
        simpl in Hn; rewrite Hn; destruct v; try discriminate; eauto.
Qed.



End StepProperties.

(** ** The name and the description *)

Lemma quiet_refl (w : world) : quiet w w.
Proof. now repeat split. Qed.

Lemma quiet_trans (w1 w2 w3 : world) : quiet w1 w2 -> quiet w2 w3 -> quiet w1 w3.
Proof. intros [? [? ?]] [? [? ?]]. repeat split; congruence. Qed.

Lemma quiet_emit (e : event) (w w' : world) :
  entered [e] = [] -> quiet w w' -> quiet w (emit e w').
Proof.
  intros He [? [? Hc]]. repeat split; simpl; try assumption.
  now rewrite entered_app, He, app_nil_r.
Qed.

#[local] Arguments validate_project_name : simpl never.

Section MainProperties.

Variable str_lower : string -> string.
Variable path_str : path -> string.
Variable script_dir : path.

(** The prompt loop only prints and reads answers; it returns a name that
    passes validation or ends with [EOFError] when the answers run out. *)
Lemma prompt_name_loop_summary (fuel : nat) (w : world) :
  quiet w (prompt_name_loop str_lower fuel w).2 /\
  ((exists n, (prompt_name_loop str_lower fuel w).1 = Ret n /\
              validate_project_name (Some n) = true) \/
   (prompt_name_loop str_lower fuel w).1 = Raise EOFError).
Proof.
  revert w. induction fuel as [|fuel IH]; intros w; cbn [prompt_name_loop];
    unfold console_print; unfold bind, prompt_ask, say, ret, raise; simpl;
    destruct (prompt_answers w) as [|a rest]; simpl;
    try (split; [apply quiet_emit; [reflexivity | apply quiet_refl] | now right]);
    destruct (validate_project_name (Some (str_lower a))) eqn:Hv; simpl.
  - split; [repeat split; simpl; now rewrite ?entered_app, ?app_nil_r | left; eauto].
  - split; [repeat split; simpl; now rewrite ?entered_app, ?app_nil_r | now right].
  - split; [repeat split; simpl; now rewrite ?entered_app, ?app_nil_r | left; eauto].
  - match goal with |- context [prompt_name_loop str_lower fuel ?w1] =>
      destruct (IH w1) as [Hq Ho]
    end.
    split; [| exact Ho].
    eapply quiet_trans; [| exact Hq].
    repeat split; simpl. now rewrite !entered_app, !app_nil_r.
Qed.




Ltac quiet_done Hq :=
  destruct Hq as [Hq1 [Hq2 Hq3]]; simpl in *;
  rewrite ?entered_app in *; simpl in *; rewrite ?app_nil_r in *;
  repeat split; simpl; rewrite ?entered_app; simpl; rewrite ?app_nil_r; congruence.

(** Choosing the name, from the command line or at the prompts, only
    prints and reads answers.  It returns a name that passes validation,
    exits with status 1, or ends with [EOFError]. *)
Lemma choose_name_summary (args : namespace) (w : world) :
  quiet w (choose_name str_lower args w).2 /\
  ((exists n d, (choose_name str_lower args w).1 = Ret (n, d) /\
                validate_project_name (Some n) = true) \/
   (choose_name str_lower args w).1 = Exit 1 \/
   (choose_name str_lower args w).1 = Raise EOFError).
Proof.
  unfold choose_name.
  destruct (truthy (default EmptyString (project_name args))) eqn:Ht.
  - unfold console_print; unfold bind, say, ret, sys_exit.
    destruct (validate_project_name _) eqn:Hv; simpl.
    + split; [apply quiet_refl | left; eauto].
    + split; [apply quiet_emit; [reflexivity | apply quiet_refl] | right; now left].
  - unfold confirm_ask, prompt_project_name, prompt_ask; unfold bind, say, ret; simpl.
    match goal with
    | |- context [prompt_name_loop str_lower ?f ?w1] =>
        destruct (prompt_name_loop_summary f w1) as [Hq Ho];
        destruct (prompt_name_loop str_lower f w1) as [o w2]
    end.
    simpl in Ho. destruct Ho as [[n [-> Hn]] | ->]; simpl;
      [| split; [quiet_done Hq | right; now right]].
    destruct (confirm_answers w2) as [|[] crest]; simpl.
    + split; [quiet_done Hq | right; now right].
    + destruct (prompt_answers w2) as [|d prest]; simpl.
      * split; [quiet_done Hq | right; now right].
      * split; [quiet_done Hq | left; eauto].
    + split; [quiet_done Hq | left; eauto].
Qed.




End MainProperties.

(** ** The manifest and the README *)


(** C5.  Two runs of [update_pyproject_toml] that read the same text and
    get the same project name and description write the same text, whatever
    else differs between them (base directory, other files, console,
    pending answers): the text written is [pyproject_updated_content] of the
    three. *)
Theorem update_pyproject_toml_two_runs
    (base1 base2 : path) (name : string) (description : option string)
    (content : string) (w1 w2 w1' w2' : world) :
  fs w1 !! (base1 ++ ["pyproject.toml"]) = Some (File content) ->
  fs w2 !! (base2 ++ ["pyproject.toml"]) = Some (File content) ->
  update_pyproject_toml base1 name description w1 = (Ret tt, w1') ->
  update_pyproject_toml base2 name description w2 = (Ret tt, w2') ->
  fs w1' !! (base1 ++ ["pyproject.toml"]) =
    Some (File (pyproject_updated_content name description content)) /\
  fs w2' !! (base2 ++ ["pyproject.toml"]) = fs w1' !! (base1 ++ ["pyproject.toml"]).
Proof.
  intros H1 H2 R1 R2.
  apply (update_pyproject_toml_returned (fun _ => EmptyString) base1 name description
           content w1 w1' H1) in R1.
  apply (update_pyproject_toml_returned (fun _ => EmptyString) base2 name description
           content w2 w2' H2) in R2.
  rewrite R1, R2. simpl. now rewrite !lookup_insert_eq.
Qed.

Lemma default_description_line (name : string) :
  description_line (default_description name) =
  "description = " +:+ dq +:+ name +:+ " - A Django project" +:+ dq.
Proof.
  unfold description_line, default_description. now rewrite !app_str_assoc.
Qed.

(** C6.  Without a description, [create_readme] writes a README whose
    Overview section is exactly the sentence "A Django project built with
    the Django Starter Template.", and [update_pyproject_toml] puts
    "<name> - A Django project" in place of the description of the
    template. *)
Theorem defaults_without_description
    (base_dir : path) (name content : string) (w : world) :
  faults w !! (base_dir ++ ["README.md"]) = None ->
  fs w !! (base_dir ++ ["README.md"]) <> Some Dir ->
  fs w !! (base_dir ++ ["pyproject.toml"]) = Some (File content) ->
  faults w !! (base_dir ++ ["pyproject.toml"]) = None ->
  (exists w' rest,
     create_readme base_dir name None w = (Ret tt, w') /\
     fs w' !! (base_dir ++ ["README.md"]) =
       Some (File ("# " +:+ name +:+ nl +:+ nl +:+
                   "## Overview" +:+ nl +:+ nl +:+
                   "A Django project built with the Django Starter Template." +:+ nl +:+
                   nl +:+ "## Features" +:+ nl +:+ rest))) /\
  (exists w',
     update_pyproject_toml base_dir name None w = (Ret tt, w') /\
     fs w' !! (base_dir ++ ["pyproject.toml"]) =
       Some (File (replace description_literal
                     ("description = " +:+ dq +:+ name +:+ " - A Django project" +:+ dq)
                     (replace name_literal (name_line name) content)))) /\
  pyproject_updated_content name None description_literal =
    "description = " +:+ dq +:+ name +:+ " - A Django project" +:+ dq.
Proof.
  intros Hrf Hrd Hfile Hfault.
  destruct literals_unbordered as [_ [_ [Hd1 [Hd2 Hnd]]]].
  split; [| split].
  - destruct (create_readme_writes (fun _ => EmptyString) base_dir name None w Hrf Hrd)
      as [w' [Hrun Hfs]].
    exists w', (drop_str 13 readme_rest). split; [exact Hrun |].
    rewrite Hfs. simpl. rewrite lookup_insert_eq. reflexivity.
  - destruct (update_pyproject_toml_writes (fun _ => EmptyString) base_dir name None
                content w Hfile Hfault) as [w' [Hrun Hfs]].
    exists w'. split; [exact Hrun |].
    rewrite Hfs. unfold target. rewrite lookup_insert_eq.
    unfold pyproject_updated_content. cbn [or_default].
    now rewrite default_description_line.
  - unfold pyproject_updated_content. cbn [or_default].
    rewrite (replace_absent name_literal (name_line name) description_literal Hnd).
    rewrite default_description_line. now apply replace_whole.
Qed.

(** ** The theorems on concrete runs *)




Lemma cleanup_is_idempotent_witness :
  is_cleanup RemoveVenv = true /\
  fs empty_world !! target app_dir RemoveVenv = None /\
  exists w',
    run_step posix_path_str app_dir "shop" None RemoveVenv empty_world = (Ret tt, w') /\
    fs w' = fs empty_world.
Proof.
  split; [reflexivity |]. split; [reflexivity |].
  exact (proj1 (cleanup_is_idempotent posix_path_str app_dir "shop" None
                  RemoveVenv empty_world eq_refl) eq_refl).
Defined.

Lemma update_pyproject_toml_two_runs_witness :
  fs fresh_checkout !! (app_dir ++ ["pyproject.toml"]) = Some (File template_manifest) /\
  fs other_checkout !! (site_dir ++ ["pyproject.toml"]) = Some (File template_manifest) /\
  fs (update_pyproject_toml site_dir "shop" (Some "A web shop") other_checkout).2
    !! (site_dir ++ ["pyproject.toml"]) =
  fs (update_pyproject_toml app_dir "shop" (Some "A web shop") fresh_checkout).2
    !! (app_dir ++ ["pyproject.toml"]).
Proof.
  split; [reflexivity |]. split; [reflexivity |].
  exact (proj2 (update_pyproject_toml_two_runs app_dir site_dir "shop" (Some "A web shop")
                  template_manifest fresh_checkout other_checkout _ _
                  eq_refl eq_refl eq_refl eq_refl)).
Defined.

Lemma defaults_without_description_witness :
  fs fresh_checkout !! (app_dir ++ ["pyproject.toml"]) = Some (File template_manifest) /\
  pyproject_updated_content "shop" None description_literal =
    "description = " +:+ dq +:+ "shop" +:+ " - A Django project" +:+ dq.
Proof.
  split; [reflexivity |].
  refine (proj2 (proj2 (defaults_without_description app_dir "shop" template_manifest
                          fresh_checkout eq_refl _ eq_refl eq_refl))).
  discriminate.
Defined.

Lemma filesystem_error_ends_the_run_witness :
  (exists w2,
     initialise posix_path_str app_dir "shop" None false locked_checkout = (Exit 1, w2) /\
     last (console w2) =
       Some (Print "[red]✗[/red] Failed to remove virtual environment: [Errno 13] Permission denied") /\
     entered (console w2) = [RemoveGitRepo; RemoveVenv] /\
     fs w2 !! (app_dir ++ [".git"]) = None /\
     fs w2 !! (app_dir ++ [".venv"]) = Some Dir /\
     fs w2 !! (app_dir ++ [".venv"; "pyvenv.cfg"]) = None /\
     fs w2 !! (app_dir ++ ["README.md"]) = Some (File "# Django Starter Template")) /\
  (exists w2,
     initialise posix_path_str app_dir "shop" None false readonly_checkout = (Exit 1, w2) /\
     last (console w2) =
       Some (Print "[red]✗[/red] Failed to write pyproject.toml: [Errno 13] Permission denied") /\
     entered (console w2) =
       [RemoveGitRepo; RemoveVenv; RemoveDatabase; CreateReadme; UpdatePyproject] /\
     fs w2 !! (app_dir ++ [".git"]) = None /\
     fs w2 !! (app_dir ++ ["README.md"]) = Some (File (readme_content "shop" None)) /\
     fs w2 !! (app_dir ++ ["pyproject.toml"]) = Some (File template_manifest)) /\
  (exists w2,
     initialise posix_path_str app_dir "shop" None false full_disk_checkout = (Exit 1, w2) /\
     last (console w2) =
       Some (Print "[red]✗[/red] Failed to create README.md: [Errno 28] No space left on device") /\
     entered (console w2) = [RemoveGitRepo; RemoveVenv; RemoveDatabase; CreateReadme] /\
     fs w2 !! (app_dir ++ ["src"; "db.sqlite3"]) = None /\
     fs w2 !! (app_dir ++ ["README.md"]) = Some (File EmptyString) /\
     fs w2 !! (app_dir ++ ["pyproject.toml"]) = Some (File template_manifest)).
Proof.
  split; [| split].
  - pose (w1 := (run_steps posix_path_str app_dir "shop" None [RemoveGitRepo]
                   (started "shop" false locked_checkout)).2).
    assert (Hpre : run_steps posix_path_str app_dir "shop" None [RemoveGitRepo]
                     (started "shop" false locked_checkout) = (Ret tt, w1))
      by (vm_compute; reflexivity).
    pose (w' := (rmtree (app_dir ++ [".venv"]) w1).2).
    assert (Herr : fs_error app_dir "shop" None RemoveVenv w1
                     "[red]✗[/red] Failed to remove virtual environment: [Errno 13] Permission denied"
                     (fs w')).
    { apply (venv_error app_dir "shop" None w1 "[Errno 13] Permission denied" w').
      - exists Dir. vm_compute. reflexivity.
      - vm_compute. reflexivity. }
    destruct (filesystem_error_ends_the_run posix_path_str app_dir "shop" None false
                [RemoveGitRepo] [RemoveDatabase; CreateReadme; UpdatePyproject] RemoveVenv
                locked_checkout w1 _ (fs w') eq_refl Hpre Herr)
      as [w2 [Hrun [_ [Hlast [Hent [Hfs _]]]]]].
    exists w2. split; [exact Hrun |]. split; [exact Hlast |]. split; [exact Hent |].
    rewrite Hfs. repeat split; vm_compute; reflexivity.
  - pose (w1 := (run_steps posix_path_str app_dir "shop" None
                   [RemoveGitRepo; RemoveVenv; RemoveDatabase; CreateReadme]
                   (started "shop" false readonly_checkout)).2).
    assert (Hpre : run_steps posix_path_str app_dir "shop" None
                     [RemoveGitRepo; RemoveVenv; RemoveDatabase; CreateReadme]
                     (started "shop" false readonly_checkout) = (Ret tt, w1))
      by (vm_compute; reflexivity).
    assert (Herr : fs_error app_dir "shop" None UpdatePyproject w1
                     "[red]✗[/red] Failed to write pyproject.toml: [Errno 13] Permission denied"
                     (fs w1)).
    { apply (pyproject_write_error app_dir "shop" None w1 template_manifest
               "[Errno 13] Permission denied" w1).
      - exists (File template_manifest). vm_compute. reflexivity.
      - vm_compute. reflexivity.
      - vm_compute. reflexivity. }
    destruct (filesystem_error_ends_the_run posix_path_str app_dir "shop" None false
                [RemoveGitRepo; RemoveVenv; RemoveDatabase; CreateReadme] [] UpdatePyproject
                readonly_checkout w1 _ (fs w1) eq_refl Hpre Herr)
      as [w2 [Hrun [_ [Hlast [Hent [Hfs _]]]]]].
    exists w2. split; [exact Hrun |]. split; [exact Hlast |]. split; [exact Hent |].
    rewrite Hfs. repeat split; vm_compute; reflexivity.
  - pose (w1 := (run_steps posix_path_str app_dir "shop" None
                   [RemoveGitRepo; RemoveVenv; RemoveDatabase]
                   (started "shop" false full_disk_checkout)).2).
    assert (Hpre : run_steps posix_path_str app_dir "shop" None
                     [RemoveGitRepo; RemoveVenv; RemoveDatabase]
                     (started "shop" false full_disk_checkout) = (Ret tt, w1))
      by (vm_compute; reflexivity).
    pose (w' := (write_text (app_dir ++ ["README.md"]) (readme_content "shop" None) w1).2).
    assert (Herr : fs_error app_dir "shop" None CreateReadme w1
                     "[red]✗[/red] Failed to create README.md: [Errno 28] No space left on device"
                     (fs w')).
    { apply (readme_error app_dir "shop" None w1 "[Errno 28] No space left on device" w').
      vm_compute. reflexivity. }
    destruct (filesystem_error_ends_the_run posix_path_str app_dir "shop" None false
                [RemoveGitRepo; RemoveVenv; RemoveDatabase] [UpdatePyproject] CreateReadme
                full_disk_checkout w1 _ (fs w') eq_refl Hpre Herr)
      as [w2 [Hrun [_ [Hlast [Hent [Hfs _]]]]]].
    exists w2. split; [exact Hrun |]. split; [exact Hlast |]. split; [exact Hent |].
    rewrite Hfs. repeat split; vm_compute; reflexivity.
Defined.





(** * Further properties of the script *)

(** ** Validation *)

(** X1.  [validate_project_name] accepts exactly the non-empty strings of
    lowercase letters, digits, hyphens and underscores, and those strings
    followed by one newline; [None] and the empty string are rejected. *)
Theorem validate_project_name_accepts (name : option string) :
  validate_project_name name = true <->
  exists body, well_formed_name body = true /\
               (name = Some body \/ name = Some (body +:+ nl)).
Proof.
  destruct name as [s|].
  - rewrite validate_project_name_spec. split.
    + intros [body [Hb [-> | ->]]]; exists body; auto.
    + intros [body [Hb [H | H]]]; injection H as ->; exists body; auto.
  - split; [discriminate | intros [body [_ [H | H]]]; discriminate].
Qed.

(** ** The command line *)

(** X7.  As shipped, no run of [main] gets past [cli]: for every command
    line it ends with the uncaught [ValueError], exit status 1, before
    anything is printed, asked, removed or written. *)
Theorem main_never_starts
    (str_lower : string -> string) (path_str : path -> string)
    (parse_args : parser -> list string -> M namespace) (script_dir : path)
    (argv : list string) (w : world) :
  exists msg,
    main str_lower path_str parse_args script_dir argv w = (Raise (ValueError msg), w) /\
    exit_status (main str_lower path_str parse_args script_dir argv w).1 = 1.
Proof.
  eexists. unfold main, bind. rewrite cli_raises_ValueError_eq. split; reflexivity.
Qed.

(** ** The prompts *)

Section PromptProperties.

Variable str_lower : string -> string.
Variable path_str : path -> string.
Variable script_dir : path.

(** The loop passes over the answers that fail validation, printing the
    message for each, and returns the lowercased first answer that passes. *)
Lemma prompt_name_loop_first_valid (bad : list string) :
  forall (fuel : nat) (good : string) (rest : list string) (w : world),
    prompt_answers w = bad ++ good :: rest ->
    Forall (fun a => validate_project_name (Some (str_lower a)) = false) bad ->
    validate_project_name (Some (str_lower good)) = true ->
    (length bad <= fuel)%nat ->
    prompt_name_loop str_lower fuel w =
    (Ret (str_lower good),
     World (fs w) (faults w)
           (console w ++ rejected_answers (length bad) ++ [AskPrompt name_prompt])
           rest (confirm_answers w)).
Proof.
  induction bad as [|a bad IH]; intros fuel good rest w Hans Hbad Hgood Hfuel.
  - simpl in Hans.
    destruct fuel; cbn [prompt_name_loop];
      unfold console_print; unfold bind, prompt_ask, say, ret, raise; simpl;
      rewrite Hans, Hgood; reflexivity.
  - simpl in Hans, Hfuel. apply Forall_cons in Hbad as [Ha Hbad].
    destruct fuel as [|fuel]; [lia |].
    cbn [prompt_name_loop].
    unfold console_print; unfold bind at 1, prompt_ask, say, ret, raise; simpl.
    rewrite Hans, Ha. unfold bind at 1. cbv beta iota.
    rewrite (IH fuel good rest) by (simpl; auto; lia).
    unfold emit. cbn [fs faults console confirm_answers prompt_answers].
    unfold rejected_answers. simpl. rewrite <- !app_assoc. reflexivity.
Qed.

(** X2.  At the project-name prompt, every answer whose lowercased form
    fails validation is answered with the message about the name and a new
    prompt; the first answer whose lowercased form passes is returned,
    lowercased.  Exactly these answers are consumed and the file tree is not
    touched. *)
Theorem prompt_project_name_first_valid
    (bad : list string) (good : string) (rest : list string) (w : world) :
  prompt_answers w = bad ++ good :: rest ->
  Forall (fun a => validate_project_name (Some (str_lower a)) = false) bad ->
  validate_project_name (Some (str_lower good)) = true ->
  exists w',
    prompt_project_name str_lower w = (Ret (str_lower good), w') /\
    prompt_answers w' = rest /\
    fs w' = fs w /\
    console w' = console w ++ rejected_answers (length bad) ++ [AskPrompt name_prompt].
Proof.
  intros Hans Hbad Hgood. eexists. split.
  - unfold prompt_project_name.
    apply (prompt_name_loop_first_valid bad _ good rest w Hans Hbad Hgood).
    rewrite Hans, length_app. lia.
  - repeat split.
Qed.

Lemma prompt_name_loop_end_of_input (fuel : nat) (w : world) :
  (length (prompt_answers w) <= fuel)%nat ->
  Forall (fun a => validate_project_name (Some (str_lower a)) = false) (prompt_answers w) ->
  exists w',
    prompt_name_loop str_lower fuel w = (Raise EOFError, w') /\
    prompt_answers w' = [] /\ fs w' = fs w.
Proof.
  revert w.
  induction fuel as [|fuel IH]; intros w Hlen Hbad;
    cbn [prompt_name_loop];
    unfold console_print; unfold bind at 1, prompt_ask, say, ret, raise; simpl;
    destruct (prompt_answers w) as [|a rest] eqn:Hans; simpl in *;
    try (eexists; split; [reflexivity | split; [simpl; congruence | reflexivity]]; fail);
    try lia.
  apply Forall_cons in Hbad as [Ha Hbad]. rewrite Ha.
  unfold bind at 1. cbv beta iota.
  match goal with
  | |- context [prompt_name_loop str_lower fuel ?w1] =>
      destruct (IH w1) as [w' [Hrun [Hp Hfs]]]; [simpl; lia | exact Hbad |]
  end.
  exists w'. rewrite Hrun. repeat split; assumption.
Qed.

(** X3.  When the answers run out before one passes validation, the
    prompt ends with [EOFError]; the file tree is as before and every answer
    has been consumed. *)
Theorem prompt_project_name_end_of_input (w : world) :
  Forall (fun a => validate_project_name (Some (str_lower a)) = false) (prompt_answers w) ->
  exists w',
    prompt_project_name str_lower w = (Raise EOFError, w') /\
    prompt_answers w' = [] /\ fs w' = fs w.
Proof.
  intros Hbad. unfold prompt_project_name.
  now apply prompt_name_loop_end_of_input.
Qed.

Lemma entered_rejected_answers (n : nat) : entered (rejected_answers n) = [].
Proof. induction n; [reflexivity | assumption]. Qed.

(** X4.  In interactive mode (no project name on the command line) the
    name is the lowercased first valid answer and the description comes from
    the prompts alone: [None] when the user declines, the next answer when
    the user accepts.  A description given with [-d] is not used, and the
    file tree is not touched. *)
Theorem choose_name_interactive
    (args : namespace) (bad : list string) (good : string) (rest : list string)
    (custom : bool) (crest : list bool) (w : world) :
  truthy (default EmptyString (project_name args)) = false ->
  prompt_answers w = bad ++ good :: rest ->
  Forall (fun a => validate_project_name (Some (str_lower a)) = false) bad ->
  validate_project_name (Some (str_lower good)) = true ->
  confirm_answers w = custom :: crest ->
  (custom = true -> rest <> []) ->
  exists w',
    choose_name str_lower args w =
      (Ret (str_lower good, if custom then head rest else None), w') /\
    fs w' = fs w /\ entered (console w') = entered (console w).
Proof.
  intros Ht Hans Hbad Hgood Hc Hrest.
  unfold choose_name. rewrite Ht.
  unfold bind at 1 2. unfold say at 1 2. cbv beta iota.
  unfold bind at 1. unfold prompt_project_name.
  erewrite (prompt_name_loop_first_valid bad _ good rest)
    by (try eassumption; simpl; rewrite ?Hans, ?length_app; simpl; lia || reflexivity).
  cbv beta iota. unfold bind at 1. unfold confirm_ask. simpl. rewrite Hc.
  destruct custom.
  - destruct rest as [|d rest']; [now contradiction Hrest |].
    unfold bind, prompt_ask, say, ret. simpl.
    eexists. split; [reflexivity |]. split; [reflexivity |]. simpl.
    rewrite !entered_app, entered_rejected_answers. simpl. now rewrite !app_nil_r.
  - unfold bind, say, ret. simpl.
    eexists. split; [reflexivity |]. split; [reflexivity |]. simpl.
    rewrite !entered_app, entered_rejected_answers. simpl. now rewrite !app_nil_r.
Qed.

End PromptProperties.

(** ** Whole runs of the steps *)

Section RunProperties.

Variable path_str : path -> string.
Variable base_dir : path.
Variable name : string.
Variable description : option string.

Abbreviation run1 := (run_step path_str base_dir name description).
Abbreviation runs := (run_steps path_str base_dir name description).
Abbreviation init := (initialise path_str base_dir name description).

(** A run of [initialise] returns or exits with status 1, and enters an
    initial segment of the plan: all of it exactly when it returns. *)
Lemma initialise_outcome (skip : bool) (w : world) :
  ((init skip w).1 = Ret tt \/ (init skip w).1 = Exit 1) /\
  exists done,
    done `prefix_of` plan skip /\
    entered (console (init skip w).2) = entered (console w) ++ done /\
    ((init skip w).1 = Ret tt -> done = plan skip).
Proof.
  rewrite initialise_runs_plan.
  destruct (run_steps_summary path_str base_dir name description (fun _ => True)
              (plan skip) (started name skip w))
    as [Ho [_ [_ [done [Hp [Hd Hall]]]]]]; [auto | exact Logic.I |].
  destruct (runs _ _) as [o w'].
  simpl in Ho, Hd, Hall. rewrite !entered_app in Hd. simpl in Hd.
  rewrite !app_nil_r in Hd.
  destruct Ho as [-> | ->]; simpl.
  - split; [now left |]. exists done. split; [exact Hp |]. split; [| exact Hall].
    rewrite !entered_app. simpl. now rewrite !app_nil_r.
  - split; [now right |]. exists done. split; [exact Hp |]. split; [exact Hd | exact Hall].
Qed.

(** A list of steps that returns has run each step to its return. *)
Lemma run_steps_returned (s : step) (ss : list step) (w w' : world) :
  runs (s :: ss) w = (Ret tt, w') ->
  exists w1,
    run1 s (emit (Describe (step_label s)) w) = (Ret tt, w1) /\
    runs ss (emit Advance (emit Sleep w1)) = (Ret tt, w').
Proof.
  rewrite run_steps_cons.
  destruct (run1 s _) as [[[]|code|e] w1]; intros H; try discriminate.
  exists w1. now split.
Qed.

Lemma count_advance_app (evs1 evs2 : list event) :
  count_advance (evs1 ++ evs2) = (count_advance evs1 + count_advance evs2)%nat.
Proof.
  induction evs1 as [|e evs1 IH]; [reflexivity |].
  destruct e; simpl; now rewrite ?IH.
Qed.

Lemma run_step_no_advance (s : step) (w : world) :
  count_advance (console (run1 s w).2) = count_advance (console w).
Proof.
  destruct s; unfold run1, remove_git_repo, remove_venv,
    remove_database, create_readme, update_pyproject_toml; cases_on w;
    rewrite ?count_advance_app; simpl; lia.
Qed.

Lemma run_steps_advances (ss : list step) (w w' : world) :
  runs ss w = (Ret tt, w') ->
  count_advance (console w') = (count_advance (console w) + length ss)%nat.
Proof.
  revert w. induction ss as [|s ss IH]; intros w H.
  - injection H as <-. simpl. lia.
  - apply run_steps_returned in H as [w1 [H1 H2]].
    apply IH in H2. rewrite H2. simpl.
    pose proof (run_step_no_advance s (emit (Describe (step_label s)) w)) as Hs.
    rewrite H1 in Hs. simpl in Hs.
    rewrite !count_advance_app, Hs, count_advance_app. simpl. lia.
Qed.

(** X5.  A run of [setup] that returns has advanced the progress bar once
    per task it announced: five times, or four with the skip flag. *)
Theorem setup_completes_progress (skip : bool) (w w' : world) :
  setup path_str base_dir name description skip w = (Ret tt, w') ->
  let total := if negb skip then 5%nat else 4%nat in
  In (AddTask "[cyan]Setting up project..." total) (console w') /\
  count_advance (console w') = (count_advance (console w) + total)%nat.
Proof.
  rewrite setup_runs_plan. unfold bind at 1. unfold say at 1. cbv beta iota.
  unfold bind at 1.
  destruct (runs (plan skip) _) as [[[]|code|e] w1] eqn:Hrun; try discriminate.
  unfold say. intros H. injection H as <-. cbn zeta.
  pose proof (run_steps_advances _ _ _ Hrun) as Hadv.
  split.
  - simpl. apply in_or_app. left.
    assert (Hgrow : forall ss w0 w2,
               runs ss w0 = (Ret tt, w2) -> exists evs, console w2 = console w0 ++ evs).
    { induction ss as [|s ss IH]; intros w0 w2 H0.
      - injection H0 as <-. exists []. now rewrite app_nil_r.
      - apply run_steps_returned in H0 as [w3 [H3 H4]].
        apply IH in H4 as [evs2 Hevs2].
        destruct (run_step_summary path_str base_dir name description s
                    (emit (Describe (step_label s)) w0))
          as [_ [_ [_ [_ [[evs1 [Hevs1 _]] _]]]]].
        rewrite H3 in Hevs1. simpl in Hevs1, Hevs2.
        rewrite Hevs2, Hevs1. rewrite <- !app_assoc. eauto. }
    apply Hgrow in Hrun as [evs ->]. simpl.
    apply in_or_app. left. apply in_or_app. right. now left.
  - simpl. rewrite count_advance_app, Hadv. simpl.
    rewrite count_advance_app. simpl.
    destruct skip; simpl; lia.
Qed.

(** A path that a step leaves absent: no step creates anything but the
    README and the manifest. *)
Lemma step_keeps_absent (s : step) (p : path) (m m' : gmap path node) :
  step_effect base_dir s m m' ->
  p <> base_dir ++ ["README.md"] -> p <> base_dir ++ ["pyproject.toml"] ->
  m !! p = None -> m' !! p = None.
Proof.
  intros [-> | Heff] Hr Hm Hp; [exact Hp |].
  destruct s; simpl in Heff.
  - eapply lookup_weaken_None; [exact Hp | exact (proj1 Heff)].
  - eapply lookup_weaken_None; [exact Hp | exact (proj1 Heff)].
  - rewrite Heff. destruct (decide (base_dir ++ ["src"; "db.sqlite3"] = p)) as [<- | Hne];
      [apply lookup_delete_eq | now rewrite lookup_delete_ne].
  - destruct Heff as [_ [text ->]]. now rewrite lookup_insert_ne by congruence.
  - destruct Heff as [content [text [_ ->]]]. now rewrite lookup_insert_ne by congruence.
Qed.

(** What a cleanup step removed is still absent when the list of steps
    returns. *)
Lemma removed_stays_removed (pre post : list step) (s : step) (w w' : world) :
  is_cleanup s = true ->
  runs (pre ++ s :: post) w = (Ret tt, w') ->
  fs w' !! target base_dir s = None.
Proof.
  intros Hs. rewrite run_steps_app_cases.
  destruct (runs pre w) as [[[]|code|e] w0]; intros H; try discriminate.
  apply run_steps_returned in H as [w1 [H1 H2]].
  apply cleanup_removes in H1; [| exact Hs].
  destruct (run_steps_summary path_str base_dir name description
              (fun m => m !! target base_dir s = None) post
              (emit Advance (emit Sleep w1))) as [_ [_ [HI _]]].
  - intros s' m m' _ Hm Heff. apply (step_keeps_absent s' _ m m' Heff); [| | exact Hm];
      destruct s; try discriminate; simpl; now apply sibling_ne.
  - exact H1.
  - now rewrite H2 in HI.
Qed.

(** X6.  A run of [initialise] that returns (exit status 0) leaves no
    [.venv] and no [src/db.sqlite3], no [.git] unless the skip flag is set,
    a README written for the name and the description, and the manifest that
    was there, rewritten for them. *)
Theorem initialise_success (skip : bool) (w w' : world) :
  init skip w = (Ret tt, w') ->
  exit_status (init skip w).1 = 0 /\
  fs w' !! (base_dir ++ [".venv"]) = None /\
  fs w' !! (base_dir ++ ["src"; "db.sqlite3"]) = None /\
  (skip = false -> fs w' !! (base_dir ++ [".git"]) = None) /\
  fs w' !! (base_dir ++ ["README.md"]) = Some (File (readme_content name description)) /\
  exists content,
    fs w !! (base_dir ++ ["pyproject.toml"]) = Some (File content) /\
    fs w' !! (base_dir ++ ["pyproject.toml"]) =
      Some (File (pyproject_updated_content name description content)).
Proof.
  intros Hinit.
  pose proof (initialise_outputs path_str base_dir name description skip w) as Hout.
  cbn zeta in Hout. rewrite Hinit in Hout. simpl in Hout.
  destruct (Hout eq_refl) as [Hreadme Hmanifest].
  rewrite Hinit. split; [reflexivity |].
  rewrite initialise_runs_plan in Hinit.
  destruct (runs (plan skip) _) as [[[]|code|e] w1] eqn:Hrun; try discriminate.
  injection Hinit as <-. simpl.
  split; [| split; [| split; [| split; [exact Hreadme | exact Hmanifest]]]].
  - apply (removed_stays_removed (if skip then [] else [RemoveGitRepo])
             [RemoveDatabase; CreateReadme; UpdatePyproject] RemoveVenv (started name skip w) w1 eq_refl).
    rewrite <- Hrun. now destruct skip.
  - apply (removed_stays_removed ((if skip then [] else [RemoveGitRepo]) ++ [RemoveVenv])
             [CreateReadme; UpdatePyproject] RemoveDatabase (started name skip w) w1 eq_refl).
    rewrite <- Hrun. now destruct skip.
  - intros ->.
    apply (removed_stays_removed []
             [RemoveVenv; RemoveDatabase; CreateReadme; UpdatePyproject]
             RemoveGitRepo (started name false w) w1 eq_refl).
    rewrite <- Hrun. reflexivity.
Qed.

(** X8.  Without a [pyproject.toml] no run of [initialise] returns: every
    run exits with status 1 (after the steps before the manifest step, which
    are not undone), and there is still no [pyproject.toml]. *)
Theorem initialise_without_manifest (skip : bool) (w : world) :
  fs w !! (base_dir ++ ["pyproject.toml"]) = None ->
  (init skip w).1 = Exit 1 /\
  exit_status (init skip w).1 = 1 /\
  fs (init skip w).2 !! (base_dir ++ ["pyproject.toml"]) = None.
Proof.
  intros Hnone.
  pose proof (initialise_outputs path_str base_dir name description skip w) as Hret.
  cbn zeta in Hret.
  destruct (initialise_outcome skip w) as [[Ho | Ho] _].
  - destruct (Hret Ho) as [_ [content [Hc _]]]. congruence.
  - rewrite Ho. split; [reflexivity |]. split; [reflexivity |].
    rewrite initialise_runs_plan.
    destruct (run_steps_summary path_str base_dir name description
                (fun m => m !! (base_dir ++ ["pyproject.toml"]) = None)
                (plan skip) (started name skip w)) as [_ [_ [HI _]]].
    + intros s m m' _ Hm [-> | Heff]; [exact Hm |].
      destruct s; simpl in Heff.
      * eapply lookup_weaken_None; [exact Hm | exact (proj1 Heff)].
      * eapply lookup_weaken_None; [exact Hm | exact (proj1 Heff)].
      * rewrite Heff, lookup_delete_ne; [exact Hm | now apply sibling_ne].
      * destruct Heff as [_ [text ->]].
        rewrite lookup_insert_ne; [exact Hm | now apply sibling_ne].
      * destruct Heff as [content [text [Hc _]]]. congruence.
    + exact Hnone.
    + destruct (runs (plan skip) _) as [[[]|code|e] w1]; exact HI.
Qed.

End RunProperties.

(** ** Whole runs of [main] after the command line is parsed *)

Section MainRunProperties.

Variable str_lower : string -> string.
Variable path_str : path -> string.
Variable script_dir : path.

(** X9.  Nothing is removed or written before a name has passed
    validation, on the command line or at the prompts: a run either chooses
    a validated name without touching the file tree and goes on as
    [initialise] for it, or ends (exit status 1 or end of input) with the
    file tree unchanged and no step entered. *)
Theorem main_body_validates_first (args : namespace) (w : world) :
  let r := main_body str_lower path_str script_dir args w in
  (exists n d w1,
     choose_name str_lower args w = (Ret (n, d), w1) /\
     validate_project_name (Some n) = true /\
     fs w1 = fs w /\
     r = initialise path_str script_dir n d (skip_git args) w1) \/
  ((r.1 = Exit 1 \/ r.1 = Raise EOFError) /\
   fs r.2 = fs w /\ entered (console r.2) = entered (console w)).
Proof.
  cbn zeta. unfold main_body, bind.
  destruct (choose_name_summary str_lower args w) as [[Hfs [_ Hent]] Ho].
  destruct (choose_name str_lower args w) as [o w1]. simpl in Hfs, Hent, Ho.
  destruct Ho as [[n [d [-> Hv]]] | [-> | ->]].
  - left. exists n, d, w1. auto.
  - right. simpl. auto.
  - right. simpl. auto.
Qed.

(** X10.  The exit status of a run is 0 or 1, and it is 0 only after every
    step of the plan has been entered, in order. *)
Theorem main_body_exit_status (args : namespace) (w : world) :
  let r := main_body str_lower path_str script_dir args w in
  (exit_status r.1 = 0 \/ exit_status r.1 = 1) /\
  (exit_status r.1 = 0 ->
   r.1 = Ret tt /\
   entered (console r.2) = entered (console w) ++ plan (skip_git args)).
Proof.
  cbn zeta. unfold main_body, bind.
  destruct (choose_name_summary str_lower args w) as [[_ [_ Hent]] Ho].
  destruct (choose_name str_lower args w) as [o w1]. simpl in Hent, Ho.
  destruct Ho as [[n [d [-> _]]] | [-> | ->]]; simpl;
    try (split; [now right | discriminate]).
  destruct (initialise_outcome path_str script_dir n d (skip_git args) w1)
    as [Ho [done [_ [Hd Hall]]]].
  destruct (initialise _ _ _ _ _ _) as [o w2]. simpl in *.
  destruct Ho as [-> | ->]; simpl.
  - split; [now left |]. intros _. split; [reflexivity |].
    rewrite Hd, Hent. now rewrite Hall.
  - split; [now right | discriminate].
Qed.

End MainRunProperties.

(** ** The further properties on concrete runs *)

Lemma prompt_project_name_first_valid_witness :
  prompt_answers interactive_checkout = ["My Project"] ++ "My-Project" :: ["A web shop"] /\
  exists w',
    prompt_project_name ascii_lower interactive_checkout = (Ret "my-project", w') /\
    prompt_answers w' = ["A web shop"].
Proof.
  split; [reflexivity |].
  destruct (prompt_project_name_first_valid ascii_lower ["My Project"] "My-Project"
              ["A web shop"] interactive_checkout eq_refl)
    as [w' [Hrun [Hrest _]]].
  - constructor; [reflexivity | constructor].
  - reflexivity.
  - exists w'. split; [exact Hrun | exact Hrest].
Defined.

Lemma prompt_project_name_end_of_input_witness :
  Forall (fun a => validate_project_name (Some (ascii_lower a)) = false)
         (prompt_answers impatient_checkout) /\
  exists w',
    prompt_project_name ascii_lower impatient_checkout = (Raise EOFError, w') /\
    fs w' = fs impatient_checkout.
Proof.
  assert (H : Forall (fun a => validate_project_name (Some (ascii_lower a)) = false)
                     (prompt_answers impatient_checkout)).
  { simpl. constructor; [reflexivity |]. constructor; [reflexivity | constructor]. }
  split; [exact H |].
  destruct (prompt_project_name_end_of_input ascii_lower impatient_checkout H)
    as [w' [Hrun [_ Hfs]]].
  exists w'. split; [exact Hrun | exact Hfs].
Defined.

Lemma choose_name_interactive_witness :
  truthy (default EmptyString (project_name (Namespace None (Some "from -d") false))) = false /\
  exists w',
    choose_name ascii_lower (Namespace None (Some "from -d") false) interactive_checkout =
      (Ret ("my-project", Some "A web shop"), w').
Proof.
  split; [reflexivity |].
  destruct (choose_name_interactive ascii_lower (Namespace None (Some "from -d") false)
              ["My Project"] "My-Project" ["A web shop"] true [] interactive_checkout
              eq_refl eq_refl)
    as [w' [Hrun _]].
  - constructor; [reflexivity | constructor].
  - reflexivity.
  - reflexivity.
  - discriminate.
  - exists w'. exact Hrun.
Defined.

Lemma setup_completes_progress_witness :
  (setup posix_path_str app_dir "shop" None false fresh_checkout).1 = Ret tt /\
  count_advance
    (console (setup posix_path_str app_dir "shop" None false fresh_checkout).2) = 5%nat.
Proof.
  assert (H : setup posix_path_str app_dir "shop" None false fresh_checkout =
              (Ret tt, (setup posix_path_str app_dir "shop" None false fresh_checkout).2))
    by (vm_compute; reflexivity).
  split; [now rewrite H |].
  exact (proj2 (setup_completes_progress posix_path_str app_dir "shop" None false
                  fresh_checkout _ H)).
Defined.

Lemma initialise_success_witness :
  (initialise posix_path_str app_dir "shop" None true fresh_checkout).1 = Ret tt /\
  fs (initialise posix_path_str app_dir "shop" None true fresh_checkout).2
    !! (app_dir ++ [".venv"]) = None.
Proof.
  assert (H : initialise posix_path_str app_dir "shop" None true fresh_checkout =
              (Ret tt, (initialise posix_path_str app_dir "shop" None true fresh_checkout).2))
    by (vm_compute; reflexivity).
  split; [now rewrite H |].
  exact (proj1 (proj2 (initialise_success posix_path_str app_dir "shop" None true
                         fresh_checkout _ H))).
Defined.

Lemma initialise_without_manifest_witness :
  fs empty_world !! (app_dir ++ ["pyproject.toml"]) = None /\
  (initialise posix_path_str app_dir "shop" None false empty_world).1 = Exit 1.
Proof.
  split; [reflexivity |].
  exact (proj1 (initialise_without_manifest posix_path_str app_dir "shop" None false
                  empty_world eq_refl)).
Defined.

(** ** What a step leaves alone *)

(** X11.  Whatever its outcome, a step changes nothing outside its own
    target: [remove_git_repo] and [remove_venv] nothing that is not at or
    below [.git] or [.venv], [remove_database], [create_readme] and
    [update_pyproject_toml] no path but their file.  The refusals of the
    operating system and the pending answers are left as they are. *)
Theorem step_changes_only_its_target
    (path_str : path -> string) (base_dir : path) (name : string)
    (description : option string) (s : step) (w : world) (q : path) :
  ~ below (target base_dir s) q ->
  fs (run_step path_str base_dir name description s w).2 !! q = fs w !! q /\
  faults (run_step path_str base_dir name description s w).2 = faults w /\
  prompt_answers (run_step path_str base_dir name description s w).2 = prompt_answers w.
Proof.
  intros Hq.
  destruct (run_step_summary path_str base_dir name description s w)
    as [_ [Hf [Hp [_ [_ Heff]]]]].
  split; [| split; assumption].
  assert (Hne : target base_dir s <> q).
  { intros <-. apply Hq. unfold below. reflexivity. }
  destruct Heff as [-> | Heff]; [reflexivity |].
  destruct s; lazy beta iota in Heff.
  - now apply (proj2 Heff).
  - now apply (proj2 Heff).
  - rewrite Heff. now apply lookup_delete_ne.
  - destruct Heff as [_ [text ->]]. now apply lookup_insert_ne.
  - destruct Heff as [content [text [_ ->]]]. now apply lookup_insert_ne.
Qed.

Lemma step_changes_only_its_target_witness :
  ~ below (target app_dir RemoveVenv) (app_dir ++ [".git"; "HEAD"]) /\
  fs (run_step posix_path_str app_dir "shop" None RemoveVenv fresh_checkout).2
    !! (app_dir ++ [".git"; "HEAD"]) =
  fs fresh_checkout !! (app_dir ++ [".git"; "HEAD"]).
Proof.
  assert (H : ~ below (target app_dir RemoveVenv) (app_dir ++ [".git"; "HEAD"])).
  { apply (not_below_sibling app_dir ".venv" ".git" [] ["HEAD"]). discriminate. }
  split; [exact H |].
  exact (proj1 (step_changes_only_its_target posix_path_str app_dir "shop" None
                  RemoveVenv fresh_checkout _ H)).
Defined.
